(** * DataLoader: generation and loading of the Custom_Timit corpus

    A shallow embedding of [src/DataLoader.py].  The class merges
    single-speaker recordings into multi-channel wav files (one directory
    per speaker count), loads them back as fixed-length waveforms with
    their speaker count as label, and can alternatively read the four
    arrays from [.npy] files in the working directory.

    Conventions of the embedding:
    - a recording is the 1-D sample array [wavfile.read] returns for a
      mono file, kept as [list Z];
    - Python exceptions are values of [PyError]; every method is a
      function from the state of the world to an outcome and a new world
      (effects that happened before a raise stay in the world);
    - the two random generators the code draws from (the [random] module
      for [random.shuffle], numpy's global state for
      [sklearn.utils.shuffle]) are oracles of raw draws. *)

From stdpp Require Import gmap strings list fin_maps sets.
From Stdlib Require Import ZArith Lia.


(** ** Python values and exceptions *)

Inductive PyError : Type :=
| FileNotFoundError (filename : string)
| ZeroDivisionError
| ValueError (msg : string)
| AxisError
| AttributeError (name : string).

Inductive outcome (A : Type) : Type :=
| Returns (a : A)
| Raises (e : PyError).
Arguments Returns {A} a.
Arguments Raises {A} e.

(** A recording: the samples of a mono wav file. *)
Abbreviation Recording := (list Z).

(** numpy arrays of dimension one and two.  A 2-D array keeps its shape,
    so that an array with no rows still knows its number of columns. *)
Record Matrix : Type := mkMatrix {
  shape : nat * nat;
  rows : list (list Z)
}.

Inductive ndarray : Type :=
| Arr1 (v : list Z)
| Arr2 (m : Matrix).

(** [np.array(xs)] on a list of equally long 1-D arrays; [np.array([])]
    is the empty 1-D array. *)
Definition np_array (xs : list (list Z)) : ndarray :=
  match xs with
  | [] => Arr1 []
  | x :: _ => Arr2 {| shape := (length xs, length x); rows := xs |}
  end.

(** [a.T] *)
Definition np_T (a : ndarray) : ndarray :=
  match a with
  | Arr1 v => Arr1 v
  | Arr2 m =>
      Arr2 {| shape := ((shape m).2, (shape m).1);
              rows := map (λ t, map (λ r, nth t r 0%Z) (rows m))
                          (seq 0 (shape m).2) |}
  end.

(** [np.pad(x, (0, w))]: numpy refuses a negative width. *)
Definition np_pad (x : list Z) (w : Z) : outcome (list Z) :=
  if (w <? 0)%Z then Raises (ValueError "index can't contain negative values")
  else Returns (x ++ replicate (Z.to_nat w) 0%Z).

(** [np.sum(record, axis=1)]: the sum of every row; a 1-D array has no
    axis 1.  numpy accumulates 16-bit samples in the platform integer, so
    the sum of at most twenty channels does not wrap. *)
Definition sum_list (r : list Z) : Z := foldr Z.add 0%Z r.

Definition np_sum_axis1 (a : ndarray) : outcome (list Z) :=
  match a with
  | Arr1 _ => Raises AxisError
  | Arr2 m => Returns (map sum_list (rows m))
  end.

(** [len(a)] and [a[idx]] (indexing the first axis by an index array). *)
Definition np_len (a : ndarray) : nat :=
  match a with
  | Arr1 v => length v
  | Arr2 m => (shape m).1
  end.

Definition np_take (a : ndarray) (idx : list nat) : ndarray :=
  match a with
  | Arr1 v => Arr1 (map (λ i, nth i v 0%Z) idx)
  | Arr2 m => Arr2 {| shape := (length idx, (shape m).2);
                      rows := map (λ i, nth i (rows m) []) idx |}
  end.

(** [max(partition, key=len)]: the first member of maximal length. *)
Fixpoint max_by_len_from (best : Recording) (xs : list Recording) : Recording :=
  match xs with
  | [] => best
  | x :: xs' =>
      if length best <? length x then max_by_len_from x xs'
      else max_by_len_from best xs'
  end.

Definition py_max_by_len (xs : list Recording) : outcome Recording :=
  match xs with
  | [] => Raises (ValueError "max() arg is an empty sequence")
  | x :: xs' => Returns (max_by_len_from x xs')
  end.

(** ** Wav files *)

(** A wav file: its header (rate, number of channels) and its frames,
    each frame holding one sample per channel. *)
Record WavFile : Type := mkWav {
  wav_rate : nat;
  wav_channels : nat;
  wav_frames : list (list Z)
}.

(** [wavfile.write(f, rate, data)]: a 1-D array is one channel, a 2-D
    array has one channel per column. *)
Definition wavfile_write (rate : nat) (data : ndarray) : WavFile :=
  match data with
  | Arr1 v => {| wav_rate := rate; wav_channels := 1;
                 wav_frames := map (λ s, [s]) v |}
  | Arr2 m => {| wav_rate := rate; wav_channels := (shape m).2;
                 wav_frames := rows m |}
  end.

(** [wavfile.read(f)] returns the rate and the data, 2-D only when the
    file has more than one channel. *)
Definition wavfile_read (f : WavFile) : nat * ndarray :=
  (wav_rate f,
   if 1 <? wav_channels f
   then Arr2 {| shape := (length (wav_frames f), wav_channels f);
                rows := wav_frames f |}
   else Arr1 (concat (wav_frames f))).

(** ** Random generators *)

(** The raw draws still to come; an exhausted oracle keeps answering 0. *)
Definition rng : Type := list nat.

(** [randbelow(n)]: a number below [n]. *)
Definition randbelow (n : nat) (g : rng) : nat * rng :=
  match g with
  | [] => (0, [])
  | d :: g' => (d `mod` n, g')
  end.

(** [x[i], x[j] = x[j], x[i]] *)
Definition swap {A : Type} (x : list A) (i j : nat) : list A :=
  match x !! i, x !! j with
  | Some a, Some b => <[j := a]> (<[i := b]> x)
  | _, _ => x
  end.

(** The loop of [random.shuffle] (and of numpy's shuffle):
    [for i in reversed(range(1, len(x))): j = randbelow(i + 1); swap]. *)
Fixpoint shuffle_down {A : Type} (i : nat) (x : list A) (g : rng) : list A * rng :=
  match i with
  | 0 => (x, g)
  | S i' =>
      let '(j, g') := randbelow (S i) g in
      shuffle_down i' (swap x i j) g'
  end.

Definition random_shuffle {A : Type} (x : list A) (g : rng) : list A * rng :=
  shuffle_down (length x - 1) x g.

(** ** The state of the world *)

(** The file system as the class sees it:
    - [wav_sources]: for a source directory, the recordings that
      [glob(src + '/*.WAV')] and [wavfile.read] yield, in glob's order;
    - [directories]: the destination directories that exist;
    - [buckets]: for the directory [dest/k], its files [i.wav];
    - [npy_files]: the [.npy] files of the working directory. *)
Record FileSystem : Type := mkFS {
  wav_sources : gmap string (list Recording);
  directories : gset string;
  buckets : gmap (string * nat) (gmap nat WavFile);
  npy_files : gmap string ndarray
}.

(** [attrs] holds the attributes [setattr] puts on the instance;
    [log] the messages handed to [write_log]. *)
Record World : Type := mkWorld {
  fs : FileSystem;
  py_random : rng;
  np_random : rng;
  log : list string;
  attrs : gmap string ndarray
}.

Definition set_fs (f : FileSystem) (w : World) : World :=
  {| fs := f; py_random := py_random w; np_random := np_random w;
     log := log w; attrs := attrs w |}.
Definition set_py_random (g : rng) (w : World) : World :=
  {| fs := fs w; py_random := g; np_random := np_random w;
     log := log w; attrs := attrs w |}.
Definition set_np_random (g : rng) (w : World) : World :=
  {| fs := fs w; py_random := py_random w; np_random := g;
     log := log w; attrs := attrs w |}.
Definition set_log (l : list string) (w : World) : World :=
  {| fs := fs w; py_random := py_random w; np_random := np_random w;
     log := l; attrs := attrs w |}.
Definition set_attrs (a : gmap string ndarray) (w : World) : World :=
  {| fs := fs w; py_random := py_random w; np_random := np_random w;
     log := log w; attrs := a |}.

(** Files of the bucket directory [dest/k]. *)
Definition bucket (f : FileSystem) (dest : string) (k : nat) : gmap nat WavFile :=
  default ∅ (buckets f !! (dest, k)).

(** ** Computations: state and exceptions *)

Definition M (A : Type) : Type := World → outcome A * World.

Definition ret {A : Type} (a : A) : M A := λ w, (Returns a, w).
Definition raise {A : Type} (e : PyError) : M A := λ w, (Raises e, w).
Definition lift {A : Type} (o : outcome A) : M A := λ w, (o, w).
Definition bind {A B : Type} (m : M A) (k : A → M B) : M B :=
  λ w, match m w with
       | (Returns a, w') => k a w'
       | (Raises e, w') => (Raises e, w')
       end.

#[global] Instance M_ret : MRet M := @ret.
#[global] Instance M_bind : MBind M := λ A B k m, bind m k.

(** A [for] loop that threads the value the body rebinds. *)
Fixpoint foldM {A B : Type} (body : B → A → M B) (b : B) (l : list A) : M B :=
  match l with
  | [] => ret b
  | a :: l' => b' ← body b a; foldM body b' l'
  end.

Definition for_each {A : Type} (l : list A) (body : A → M unit) : M unit :=
  foldM (λ _ a, body a) () l.

(** A list comprehension whose element expression may raise. *)
Fixpoint map_outcome {A B : Type} (f : A → outcome B) (l : list A) : outcome (list B) :=
  match l with
  | [] => Returns []
  | a :: l' =>
      match f a with
      | Raises e => Raises e
      | Returns b =>
          match map_outcome f l' with
          | Raises e => Raises e
          | Returns bs => Returns (b :: bs)
          end
      end
  end.

(** *** Primitive effects *)

(** [helpers.write_log] is not among the sources; the embedding keeps
    the message it is given. *)
Definition write_log (msg : string) : M unit :=
  λ w, (Returns (), set_log (log w ++ [msg]) w).

(** [glob(src_dir + '/*.WAV')] followed by [wavfile.read] of each file;
    a directory without such files yields the empty list. *)
Definition recordings (f : FileSystem) (src_dir : string) : list Recording :=
  default [] (wav_sources f !! src_dir).

Definition read_sources (src_dir : string) : M (list Recording) :=
  λ w, (Returns (recordings (fs w) src_dir), w).

(** [Path(dest_dir + '/k').mkdir(parents=True, exist_ok=True)] *)
Definition mkdir_bucket (dest_dir : string) (k : nat) : M unit :=
  λ w, (Returns (),
        set_fs {| wav_sources := wav_sources (fs w);
                  directories := {[dest_dir]} ∪ directories (fs w);
                  buckets := <[(dest_dir, k) := bucket (fs w) dest_dir k]> (buckets (fs w));
                  npy_files := npy_files (fs w) |} w).

(** [open(dest_dir/k/i.wav, 'wb+')] and [wavfile.write] into it. *)
Definition write_wav (dest_dir : string) (k i : nat) (file : WavFile) : M unit :=
  λ w, (Returns (),
        set_fs {| wav_sources := wav_sources (fs w);
                  directories := directories (fs w);
                  buckets := <[(dest_dir, k) := <[i := file]> (bucket (fs w) dest_dir k)]>
                               (buckets (fs w));
                  npy_files := npy_files (fs w) |} w).

(** [glob(dest_dir/k + '/*.wav')]: the files of the bucket directory, in
    the order the directory lists them. *)
Definition bucket_files (f : FileSystem) (dest_dir : string) (k : nat) : list WavFile :=
  (map_to_list (bucket f dest_dir k)).*2.

Definition glob_wav (dest_dir : string) (k : nat) : M (list WavFile) :=
  λ w, (Returns (bucket_files (fs w) dest_dir k), w).

(** [os.path.exists] of a destination directory and of a [.npy] file. *)
Definition dir_exists (d : string) : M bool :=
  λ w, (Returns (bool_decide (d ∈ directories (fs w))), w).

Definition npy_exists (filename : string) : M bool :=
  λ w, (Returns (bool_decide (is_Some (npy_files (fs w) !! filename))), w).

Definition np_load (filename : string) : M ndarray :=
  λ w, match npy_files (fs w) !! filename with
       | Some a => (Returns a, w)
       | None => (Raises (FileNotFoundError filename), w)
       end.

Definition np_save (filename : string) (a : ndarray) : M unit :=
  λ w, (Returns (),
        set_fs {| wav_sources := wav_sources (fs w);
                  directories := directories (fs w);
                  buckets := buckets (fs w);
                  npy_files := <[filename := a]> (npy_files (fs w)) |} w).

Definition setattr (name : string) (a : ndarray) : M unit :=
  λ w, (Returns (), set_attrs (<[name := a]> (attrs w)) w).

Definition getattr (name : string) : M ndarray :=
  λ w, match attrs w !! name with
       | Some a => (Returns a, w)
       | None => (Raises (AttributeError name), w)
       end.

(** [random.shuffle(x)], drawing from the [random] module's generator. *)
Definition py_shuffle {A : Type} (x : list A) : M (list A) :=
  λ w, let '(x', g') := random_shuffle x (py_random w) in
       (Returns x', set_py_random g' w).

(** [sklearn.utils.shuffle(a, b)]: one permutation of the row indices,
    drawn from numpy's global generator, indexes both arrays. *)
Definition sklearn_shuffle (a b : ndarray) : M (ndarray * ndarray) :=
  λ w, if negb (np_len a =? np_len b)
       then (Raises (ValueError "Found input variables with inconsistent numbers of samples"), w)
       else let '(idx, g') := random_shuffle (seq 0 (np_len a)) (np_random w) in
            (Returns (np_take a idx, np_take b idx), set_np_random g' w).

(** [range(0, stop, step)] and [range(lo, hi)]. *)
Definition py_range_step (stop step : nat) : outcome (list nat) :=
  if step =? 0 then Raises (ValueError "range() arg 3 must not be zero")
  else Returns (map (λ j, j * step) (seq 0 ((stop + step - 1) / step))).

Definition py_range (lo hi : nat) : list nat := seq lo (hi - lo).

(** [a // b] on non-negative integers. *)
Definition floordiv (a b : nat) : outcome nat :=
  if b =? 0 then Raises ZeroDivisionError else Returns (a / b).

(** ** The class *)

Record DataLoader : Type := mkDataLoader {
  train_src_dir : string;
  test_src_dir : string;
  train_dest_dir : string;
  test_dest_dir : string;
  min_speakers : nat;
  max_speakers : nat;
  sampled_at : N;
  pad_to : nat;
  save_to_file : bool;
  load_from_file : bool
}.

(** [DataLoader(train_src_dir, test_src_dir, train_dest_dir, test_dest_dir)]
    with the class attributes as the source sets them. *)
Definition new_DataLoader (train_src test_src train_dest test_dest : string) : DataLoader :=
  {| train_src_dir := train_src; test_src_dir := test_src;
     train_dest_dir := train_dest; test_dest_dir := test_dest;
     min_speakers := 2; max_speakers := 20;
     sampled_at := 16000; pad_to := N.to_nat (16000 * 5);
     save_to_file := false; load_from_file := true |}.

(** What a method hands back to Python code: an integer, an array, a
    tuple, or the lazy object [map(tuple, args)]. *)
#[local] Unset Elimination Schemes.
Inductive PyValue : Type :=
| PyInt (z : Z)
| PyArray (a : ndarray)
| PyTuple (items : list PyValue)
| PyMapTuple (args : list PyValue).
#[local] Set Elimination Schemes.

Section Methods.
Variable self : DataLoader.

(** The body of the loop over the partitions: pad every member to the
    longest one, stack, transpose, and write [dest_dir/k/i.wav].  The
    partition itself, [np.array(train[i:i + num_speakers])], is only
    iterated member by member, so it is kept as the list of its members
    (numpy stores recordings of unequal length as an array of objects). *)
Definition pad_partition (partition : list Recording) : outcome (list (list Z)) :=
  match py_max_by_len partition with
  | Raises e => Raises e
  | Returns longest =>
      let pad_to := length longest in
      map_outcome (λ x, np_pad x (Z.of_nat pad_to - Z.of_nat (length x))) partition
  end.

Definition write_partition (dest_dir : string) (num_speakers : nat)
    (ip : nat * list Recording) : M unit :=
  let '(i, partition) := ip in
  padded ← lift (pad_partition partition);
  write_wav dest_dir num_speakers i
    (wavfile_write (N.to_nat (sampled_at self)) (np_T (np_array padded))).

(** [__create_concurrent_speakers].  The list [train] is the caller's
    list, shuffled in place: the method hands it back as it leaves it. *)
Definition create_concurrent_speakers (train : list Recording) (dest_dir : string)
    (num_speakers num_records : nat) (shuffle : bool) : M (list Recording) :=
  mkdir_bucket dest_dir num_speakers;;
  train ← (if shuffle then py_shuffle train else ret train);
  starts ← lift (py_range_step (num_records * num_speakers) num_speakers);
  let partitions := map (λ i, take num_speakers (drop i train)) starts in
  for_each (zip (seq 0 (length partitions)) partitions)
           (write_partition dest_dir num_speakers);;
  ret train.

(** The body of the loop over the two splits in [__generate_datasets]. *)
Definition generate_split (d : string * string * bool) : M unit :=
  let '(src_dir, dest_dir, shuffle) := d in
  files ← read_sources src_dir;
  num_records_per_count ← lift (floordiv (length files) (max_speakers self));
  let data := files in
  foldM (λ data i, create_concurrent_speakers data dest_dir i
                     num_records_per_count shuffle)
        data (py_range (min_speakers self) (max_speakers self + 1));;
  ret ().

(** [__generate_datasets] *)
Definition generate_datasets : M unit :=
  write_log "Generating data";;
  let dirs := [(train_src_dir self, train_dest_dir self, true);
               (test_src_dir self, test_dest_dir self, false)] in
  for_each dirs generate_split;;
  write_log "Data generated".

(** [__save_to_file]; the trailing underscore keeps the method apart
    from the attribute [save_to_file]. *)
Definition save_to_file_ (train_x train_y test_x test_y : ndarray) : M unit :=
  write_log "Saving data to filesystem";;
  np_save "train_x.npy" train_x;;
  np_save "train_y.npy" train_y;;
  np_save "test_x.npy" test_x;;
  np_save "test_y.npy" test_y.

(** [np.pad(x, (0, max(pad_to - len(x), 0)))[:pad_to]] *)
Definition pad_and_cut (x : list Z) : outcome (list Z) :=
  match np_pad x (Z.max (Z.of_nat (pad_to self) - Z.of_nat (length x)) 0) with
  | Raises e => Raises e
  | Returns padded => Returns (take (pad_to self) padded)
  end.

(** The body of the loop over the speaker counts in [__load_datasets]. *)
Definition load_bucket (acc : list (list Z) * list nat * list (list Z) * list nat)
    (y : nat) : M (list (list Z) * list nat * list (list Z) * list nat) :=
  let '(train_x, train_y, test_x, test_y) := acc in
  train_files ← glob_wav (train_dest_dir self) y;
  test_files ← glob_wav (test_dest_dir self) y;
  current_train_x ← lift (map_outcome (λ wav, np_sum_axis1 (wavfile_read wav).2) train_files);
  let current_train_y := replicate (length current_train_x) y in
  current_test_x ← lift (map_outcome (λ wav, np_sum_axis1 (wavfile_read wav).2) test_files);
  let current_test_y := replicate (length current_test_x) y in
  ret (train_x ++ current_train_x, train_y ++ current_train_y,
       test_x ++ current_test_x, test_y ++ current_test_y).

(** [__load_datasets] *)
Definition load_datasets : M (ndarray * ndarray * ndarray * ndarray) :=
  write_log "Loading data";;
  '(train_x, train_y, test_x, test_y) ←
    foldM load_bucket ([], [], [], [])
          (py_range (min_speakers self) (max_speakers self + 1));
  train_x ← lift (map_outcome pad_and_cut train_x);
  test_x ← lift (map_outcome pad_and_cut test_x);
  let train_x := np_array train_x in
  let test_x := np_array test_x in
  let train_y := Arr1 (map Z.of_nat train_y) in
  let test_y := Arr1 (map Z.of_nat test_y) in
  '(train_x, train_y) ← sklearn_shuffle train_x train_y;
  '(test_x, test_y) ← sklearn_shuffle test_x test_y;
  write_log "Data loaded";;
  (if save_to_file self then save_to_file_ train_x train_y test_x test_y else ret ());;
  ret (train_x, train_y, test_x, test_y).

(** [__load_from_file]: its list [sets], the body of its loop, and the
    method (again with a trailing underscore, for the attribute
    [load_from_file]). *)
Definition sets : list string := ["train_x"; "train_y"; "test_x"; "test_y"].

Definition load_set (set : string) : M unit :=
  let filename := set +:+ ".npy" in
  found ← npy_exists filename;
  if negb found then raise (FileNotFoundError filename)
  else a ← np_load filename; setattr set a.

Definition load_from_file_ : M PyValue :=
  write_log "Loading data from filesystem";;
  for_each sets load_set;;
  write_log "Data loaded";;
  loaded ← foldM (λ acc set, a ← getattr set; ret (acc ++ [PyArray a])) [] sets;
  ret (PyMapTuple loaded).

(** [load_data] *)
Definition load_data (force_recreate : bool) : M PyValue :=
  (if force_recreate then generate_datasets else ret ());;
  if load_from_file self then load_from_file_
  else
    train_there ← dir_exists (train_dest_dir self);
    test_there ← dir_exists (test_dest_dir self);
    (if negb train_there || negb test_there then generate_datasets else ret ());;
    '(train_x, train_y, test_x, test_y) ← load_datasets;
    ret (PyTuple [PyArray train_x; PyArray train_y; PyArray test_x; PyArray test_y]).
End Methods.

(** ** Notions the statements are phrased in *)

(** Length of the longest member of a partition. *)
Definition max_len (p : list Recording) : nat := foldr Nat.max 0 (length <$> p).

(** [train[i*k : i*k + k]], the [i]-th group of [k] recordings. *)
Definition group (k i : nat) (train : list Recording) : list Recording :=
  take k (drop (i * k) train).

(** Channel [j] of a wav file: sample [j] of every frame. *)
Definition channel (j : nat) (f : WavFile) : list Z :=
  map (λ fr, nth j fr 0%Z) (wav_frames f).

(** The mono waveform the loader computes from a file with several
    channels: the sum of every frame. *)
Definition mono (f : WavFile) : list Z := map sum_list (wav_frames f).

(** The list [train] after [j] calls of [random.shuffle] on it, and the
    generator those calls leave. *)
Fixpoint shuffled_at {A : Type} (j : nat) (train : list A) (g : rng) : list A * rng :=
  match j with
  | 0 => (train, g)
  | S j' => let '(train', g') := random_shuffle train g in shuffled_at j' train' g'
  end.

(** Rows and labels of the arrays the loader returns. *)
Definition samples_of (a : ndarray) : list (list Z) :=
  match a with
  | Arr1 _ => []
  | Arr2 m => rows m
  end.

Definition labels_of (a : ndarray) : list Z :=
  match a with
  | Arr1 v => v
  | Arr2 _ => []
  end.

(** A partition with every member right-zero-padded to the longest. *)
Definition padded (p : list Recording) : list (list Z) :=
  map (λ x, x ++ replicate (max_len p - length x) 0%Z) p.

(** The file [write_partition] writes for a non-empty partition. *)
Definition mixture (rate : nat) (p : list Recording) : WavFile :=
  wavfile_write rate (np_T (np_array (padded p))).

(** The first [n] groups of [k] recordings, with their indices, as
    [enumerate(partitions)] yields them. *)
Definition groups (k n : nat) (train : list Recording) : list (nat * list Recording) :=
  zip (seq 0 n) (map (λ i, group k i train) (seq 0 n)).

(** A bucket directory after the mixtures of the indexed partitions
    have been written into it, one after the other. *)
Definition write_files (rate : nat) (ips : list (nat * list Recording))
    (b : gmap nat WavFile) : gmap nat WavFile :=
  foldl (λ b ip, <[ip.1 := mixture rate ip.2]> b) b ips.

(** The list a bucket is partitioned from, [j] calls into the loop over
    the speaker counts: shuffled [j] times if shuffling is on. *)
Definition base_at {A : Type} (shuffle : bool) (j : nat) (train : list A) (g : rng)
    : list A * rng :=
  if shuffle then shuffled_at j train g else (train, g).

(** The parts of the world generation does not touch. *)
Definition frame (w w' : World) : Prop :=
  wav_sources (fs w') = wav_sources (fs w)
  ∧ npy_files (fs w') = npy_files (fs w)
  ∧ np_random w' = np_random w
  ∧ log w' = log w
  ∧ attrs w' = attrs w.

(** A waveform brought to [n] samples: zeros appended when it is
    shorter, cut when it is longer. *)
Definition fit (n : nat) (x : list Z) : list Z :=
  if length x <=? n then x ++ replicate (n - length x) 0%Z else take n x.

(** The samples the bucket directories of [dest] hold, bucket by bucket:
    the fitted mono waveform of every file, with the bucket's speaker
    count. *)
Definition bucket_samples (self : DataLoader) (f : FileSystem) (dest : string)
    : list (list Z * Z) :=
  flat_map (λ k, map (λ file, (fit (pad_to self) (mono file), Z.of_nat k))
                     (bucket_files f dest k))
           (py_range (min_speakers self) (max_speakers self + 1)).

(** What the snapshot load comes to, as a function of the [.npy] files
    of the working directory: the first absent file is reported, and
    when none is absent the four arrays are handed to [map(tuple, ...)]. *)
Definition snapshot_outcome (npy : gmap string ndarray) : outcome PyValue :=
  match npy !! "train_x.npy" with
  | None => Raises (FileNotFoundError "train_x.npy")
  | Some a =>
      match npy !! "train_y.npy" with
      | None => Raises (FileNotFoundError "train_y.npy")
      | Some b =>
          match npy !! "test_x.npy" with
          | None => Raises (FileNotFoundError "test_x.npy")
          | Some c =>
              match npy !! "test_y.npy" with
              | None => Raises (FileNotFoundError "test_y.npy")
              | Some d => Returns (PyMapTuple [PyArray a; PyArray b; PyArray c; PyArray d])
              end
          end
      end
  end.

(** The value [load_data] returns after a pass of the loader. *)
Definition loader_result (self : DataLoader) : M PyValue :=
  '(train_x, train_y, test_x, test_y) ← load_datasets self;
  ret (PyTuple [PyArray train_x; PyArray train_y; PyArray test_x; PyArray test_y]).

(** [tuple(a)] of an array, and the items a returned value yields when
    it is unpacked ([a, b, c, d = value]). *)
Definition py_tuple (v : PyValue) : PyValue :=
  match v with
  | PyArray (Arr1 xs) => PyTuple (map PyInt xs)
  | PyArray (Arr2 m) => PyTuple (map (λ r, PyArray (Arr1 r)) (rows m))
  | other => other
  end.

Definition py_items (v : PyValue) : list PyValue :=
  match v with
  | PyTuple items => items
  | PyMapTuple args => map py_tuple args
  | _ => []
  end.

(** The precedence of the specification's orchestrator, to be compared
    with [load_data]: forced regeneration is followed by the loader, and
    the snapshot flag is looked at only when regeneration is not forced. *)
Definition load_data_spec (self : DataLoader) (force_recreate : bool) : M PyValue :=
  if force_recreate then generate_datasets self;; loader_result self
  else if load_from_file self then load_from_file_
  else
    train_there ← dir_exists (train_dest_dir self);
    test_there ← dir_exists (test_dest_dir self);
    if negb train_there || negb test_there
    then generate_datasets self;; loader_result self
    else loader_result self.

(** ** Concrete inputs *)

(** A loader with the class attributes untouched, and a small corpus:
    45 train and 23 test recordings of one to three samples. *)
Definition timit : DataLoader :=
  new_DataLoader "TIMIT/TRAIN" "TIMIT/TEST" "data/train" "data/test".

Definition clip (i : nat) : list Z := replicate (1 + i `mod` 3) (Z.of_nat (i + 1)).

Definition draws (a b : nat) : rng := map (λ i, a * i + b) (seq 0 900).

Definition corpus : FileSystem :=
  {| wav_sources := {[ "TIMIT/TRAIN" := map clip (seq 0 45);
                       "TIMIT/TEST" := map clip (seq 100 23) ]};
     directories := ∅; buckets := ∅; npy_files := ∅ |}.

Definition studio : World :=
  {| fs := corpus; py_random := draws 7 3; np_random := draws 5 1;
     log := []; attrs := ∅ |}.

(** The same test recordings, other train recordings, other draws. *)
Definition studio' : World :=
  {| fs := {| wav_sources := {[ "TIMIT/TRAIN" := map clip (seq 7 60);
                                "TIMIT/TEST" := map clip (seq 100 23) ]};
              directories := ∅; buckets := ∅; npy_files := ∅ |};
     py_random := draws 11 2; np_random := draws 3 4;
     log := []; attrs := ∅ |}.

(** A loader set to read the generated layout, with two speaker counts
    and waveforms of four samples, and a layout for it. *)
Definition small : DataLoader :=
  {| train_src_dir := "TIMIT/TRAIN"; test_src_dir := "TIMIT/TEST";
     train_dest_dir := "data/train"; test_dest_dir := "data/test";
     min_speakers := 2; max_speakers := 3;
     sampled_at := 16000; pad_to := 4;
     save_to_file := false; load_from_file := false |}.

Definition layout : gmap (string * nat) (gmap nat WavFile) :=
  {[ ("data/train", 2) := {[ 0 := mixture 16 [[1; 2; 3]; [4]]%Z;
                             1 := mixture 16 [[5]; [6; 7; 8; 9; 10]]%Z ]};
     ("data/train", 3) := {[ 0 := mixture 16 [[1]; [1]; [1]]%Z ]};
     ("data/test", 2) := {[ 0 := mixture 16 [[7; 7]; [1]]%Z ]} ]}.

Definition booth : World :=
  {| fs := {| wav_sources := ∅; directories := {[ "data/train"; "data/test" ]};
              buckets := layout; npy_files := ∅ |};
     py_random := []; np_random := [3; 1; 4; 1; 5; 9; 2; 6];
     log := []; attrs := ∅ |}.

(** The same layout and the same numpy generator in another world. *)
Definition booth' : World :=
  {| fs := {| wav_sources := {[ "TIMIT/TRAIN" := [[1; 1]]%Z ]};
              directories := {[ "data/train"; "data/test"; "elsewhere" ]};
              buckets := <[("elsewhere", 2) := {[ 0 := mixture 16 [[9]; [9]]%Z ]}]> layout;
              npy_files := {[ "train_x.npy" := Arr1 [1]%Z ]} |};
     py_random := [2; 7]; np_random := [3; 1; 4; 1; 5; 9; 2; 6];
     log := ["started"]; attrs := ∅ |}.

(** The small loader with the snapshot flag on, and worlds whose
    working directory holds all four arrays, or the train arrays only. *)
Definition small_cached : DataLoader :=
  {| train_src_dir := "TIMIT/TRAIN"; test_src_dir := "TIMIT/TEST";
     train_dest_dir := "data/train"; test_dest_dir := "data/test";
     min_speakers := 2; max_speakers := 3;
     sampled_at := 16000; pad_to := 4;
     save_to_file := false; load_from_file := true |}.

Definition cache : gmap string ndarray :=
  {[ "train_x.npy" := np_array [[1; 2; 3; 4]; [5; 6; 7; 8]]%Z;
     "train_y.npy" := Arr1 [2; 3]%Z;
     "test_x.npy" := np_array [[9; 9; 9; 9]]%Z;
     "test_y.npy" := Arr1 [2]%Z ]}.

Definition cached : World :=
  {| fs := {| wav_sources := ∅; directories := {[ "data/train"; "data/test" ]};
              buckets := layout; npy_files := cache |};
     py_random := []; np_random := [3; 1; 4; 1; 5; 9; 2; 6];
     log := []; attrs := ∅ |}.

Definition half_cached : World :=
  {| fs := {| wav_sources := ∅; directories := {[ "data/train"; "data/test" ]};
              buckets := layout;
              npy_files := {[ "train_x.npy" := np_array [[1; 2; 3; 4]]%Z;
                              "train_y.npy" := Arr1 [2]%Z ]} |};
     py_random := []; np_random := []; log := []; attrs := ∅ |}.

(** The corpus with a full snapshot in the working directory. *)
Definition archive : World :=
  {| fs := {| wav_sources := wav_sources corpus; directories := ∅;
              buckets := ∅; npy_files := cache |};
     py_random := draws 7 3; np_random := draws 5 1;
     log := []; attrs := ∅ |}.

(** ** Notions for the properties beyond the claims *)

(** A computation keeps a relation between the world it starts in and
    the world it leaves, whatever it returns or raises. *)
Definition preserves (R : relation World) {A : Type} (m : M A) : Prop :=
  ∀ w, R w (m w).2.

(** The files [__save_to_file] writes. *)
Definition snapshot_names : list string :=
  ["train_x.npy"; "train_y.npy"; "test_x.npy"; "test_y.npy"].

(** What a pass of the loader leaves alone: the sources, the generated
    layout, the [random] module's generator, the instance attributes, and
    every [.npy] file but the four. *)
Definition loader_footprint (w w' : World) : Prop :=
  wav_sources (fs w') = wav_sources (fs w)
  ∧ directories (fs w') = directories (fs w)
  ∧ buckets (fs w') = buckets (fs w)
  ∧ py_random w' = py_random w
  ∧ attrs w' = attrs w
  ∧ (∀ name, name ∉ snapshot_names →
       npy_files (fs w') !! name = npy_files (fs w) !! name).

(** The file system, the [random] module's generator and the attributes
    are as they were. *)
Definition same_files (w w' : World) : Prop :=
  fs w' = fs w ∧ py_random w' = py_random w ∧ attrs w' = attrs w.

(** What generation leaves alone: the sources, the [.npy] files, numpy's
    generator, the attributes, every bucket directory that is not
    [dest/k] for one of the two destinations and a speaker count in
    range; it creates no directory but the two destinations, and removes
    neither a directory nor a file. *)
Definition generation_footprint (self : DataLoader) (w w' : World) : Prop :=
  wav_sources (fs w') = wav_sources (fs w)
  ∧ npy_files (fs w') = npy_files (fs w)
  ∧ np_random w' = np_random w
  ∧ attrs w' = attrs w
  ∧ (∀ d, d ∈ directories (fs w) → d ∈ directories (fs w'))
  ∧ (∀ d, d ∈ directories (fs w') →
       d = train_dest_dir self ∨ d = test_dest_dir self ∨ d ∈ directories (fs w))
  ∧ (∀ d k, ¬ ((d = train_dest_dir self ∨ d = test_dest_dir self)
               ∧ min_speakers self ≤ k ≤ max_speakers self) →
       buckets (fs w') !! (d, k) = buckets (fs w) !! (d, k))
  ∧ (∀ d k i, is_Some (bucket (fs w) d k !! i) → is_Some (bucket (fs w') d k !! i)).


Definition in_range (self : DataLoader) (k : nat) : Prop :=
  min_speakers self ≤ k ≤ max_speakers self.

(** The recordings of a partition played together: at every instant the
    sum of the samples of the members that are still running. *)
Definition overlay (p : list Recording) : list Z :=
  map (λ t, sum_list (map (λ x, nth t x 0%Z) p)) (seq 0 (max_len p)).

(** The small loader with saving on. *)
Definition small_saving : DataLoader :=
  {| train_src_dir := "TIMIT/TRAIN"; test_src_dir := "TIMIT/TEST";
     train_dest_dir := "data/train"; test_dest_dir := "data/test";
     min_speakers := 2; max_speakers := 3;
     sampled_at := 16000; pad_to := 4;
     save_to_file := true; load_from_file := false |}.

(** Loaders whose speaker counts make generation fail: no speaker count
    at all, and speaker counts that start at zero. *)
Definition no_speakers : DataLoader :=
  {| train_src_dir := "TIMIT/TRAIN"; test_src_dir := "TIMIT/TEST";
     train_dest_dir := "data/train"; test_dest_dir := "data/test";
     min_speakers := 2; max_speakers := 0;
     sampled_at := 16000; pad_to := 4;
     save_to_file := false; load_from_file := true |}.


(** A loader whose speaker counts start at one. *)
Definition from_one : DataLoader :=
  {| train_src_dir := "TIMIT/TRAIN"; test_src_dir := "TIMIT/TEST";
     train_dest_dir := "data/train"; test_dest_dir := "data/test";
     min_speakers := 1; max_speakers := 3;
     sampled_at := 16000; pad_to := 4;
     save_to_file := false; load_from_file := false |}.

(** * Properties *)

(** The model writes [map] where the library's lemmas speak of [<$>]. *)
Ltac fmapify :=
  repeat match goal with
         | |- context [map ?f ?l] => change (map f l) with (f <$> l)
         | H : context [map ?f ?l] |- _ => change (map f l) with (f <$> l) in H
         end.

(** ** Shuffling *)

Lemma swap_length {A : Type} (x : list A) (i j : nat) :
  length (swap x i j) = length x.
Proof.
  unfold swap. destruct (x !! i), (x !! j); try done.
  by rewrite !length_insert.
Qed.

Lemma swap_Permutation {A : Type} (x : list A) (i j : nat) : swap x i j ≡ₚ x.
Proof.
  unfold swap.
  destruct (x !! i) as [a|] eqn:Hi; [|done].
  destruct (x !! j) as [b|] eqn:Hj; [|done].
  pose proof (lookup_lt_Some _ _ _ Hi) as Hli.
  pose proof (lookup_lt_Some _ _ _ Hj) as Hlj.
  apply Permutation_inj. split; [by rewrite !length_insert|].
  exists (λ n, if decide (n = i) then j else if decide (n = j) then i else n).
  split.
  - intros n m. repeat case_decide; intros; subst; congruence.
  - intros n. rewrite !list_lookup_insert, length_insert.
    repeat case_decide; subst; try done; try lia; intuition congruence.
Qed.

Lemma shuffle_down_Permutation {A : Type} (i : nat) (x : list A) (g : rng) :
  (shuffle_down i x g).1 ≡ₚ x.
Proof.
  revert x g. induction i as [|i IH]; intros x g; [done|].
  cbn [shuffle_down]. destruct (randbelow (S (S i)) g) as [j g'].
  rewrite IH. apply swap_Permutation.
Qed.

Lemma random_shuffle_Permutation {A : Type} (x : list A) (g : rng) :
  (random_shuffle x g).1 ≡ₚ x.
Proof. apply shuffle_down_Permutation. Qed.

Lemma random_shuffle_length {A : Type} (x : list A) (g : rng) :
  length (random_shuffle x g).1 = length x.
Proof. apply Permutation_length, random_shuffle_Permutation. Qed.

Lemma shuffled_at_Permutation {A : Type} (j : nat) (x : list A) (g : rng) :
  (shuffled_at j x g).1 ≡ₚ x.
Proof.
  revert x g. induction j as [|j IH]; intros x g; [done|].
  cbn [shuffled_at]. pose proof (random_shuffle_Permutation x g) as Hp.
  destruct (random_shuffle x g) as [x' g']. rewrite IH. exact Hp.
Qed.

Lemma shuffled_at_length {A : Type} (j : nat) (x : list A) (g : rng) :
  length (shuffled_at j x g).1 = length x.
Proof. apply Permutation_length, shuffled_at_Permutation. Qed.

Lemma index_Permutation_eq {A : Type} (d : A) (l : list A) :
  map (λ i, nth i l d) (seq 0 (length l)) = l.
Proof.
  fmapify. apply list_eq. intros i. rewrite list_lookup_fmap.
  destruct (decide (i < length l)) as [Hlt|Hge].
  - rewrite (lookup_seq_lt 0 _ i) by done. simpl.
    destruct (lookup_lt_is_Some_2 l i Hlt) as [x Hx].
    rewrite Hx. f_equal. by apply nth_lookup_Some.
  - rewrite lookup_seq_ge by lia. symmetry. apply lookup_ge_None. lia.
Qed.

(** Indexing by a permutation of the indices permutes the list. *)
Lemma index_Permutation {A : Type} (d : A) (l : list A) (idx : list nat) :
  idx ≡ₚ seq 0 (length l) → map (λ i, nth i l d) idx ≡ₚ l.
Proof. intros Hp. by rewrite Hp, index_Permutation_eq. Qed.

(** ** Running computations *)

Lemma run_bind {A B : Type} (m : M A) (k : A → M B) (w : World) :
  (m ≫= k) w = match m w with
                | (Returns a, w') => k a w'
                | (Raises e, w') => (Raises e, w')
                end.
Proof. reflexivity. Qed.

Lemma run_bind_returns {A B : Type} (m : M A) (k : A → M B) (w w' : World) (a : A) :
  m w = (Returns a, w') → (m ≫= k) w = k a w'.
Proof. intros H. by rewrite run_bind, H. Qed.

Lemma run_bind_raises {A B : Type} (m : M A) (k : A → M B) (w w' : World) (e : PyError) :
  m w = (Raises e, w') → (m ≫= k) w = (Raises e, w').
Proof. intros H. by rewrite run_bind, H. Qed.

Lemma map_outcome_returns {A B : Type} (f : A → outcome B) (g : A → B) (l : list A) :
  (∀ x, x ∈ l → f x = Returns (g x)) → map_outcome f l = Returns (map g l).
Proof.
  induction l as [|a l IH]; intros Hf; [done|].
  cbn [map_outcome map]. rewrite (Hf a) by left.
  rewrite IH; [done|]. intros x Hx. apply Hf. by right.
Qed.

Lemma map_outcome_inv {A B : Type} (f : A → outcome B) (l : list A) (bs : list B) :
  map_outcome f l = Returns bs → Forall2 (λ a b, f a = Returns b) l bs.
Proof.
  revert bs. induction l as [|a l IH]; intros bs H; cbn [map_outcome] in H.
  - injection H as <-. constructor.
  - destruct (f a) as [b|e] eqn:Hfa; [|done].
    destruct (map_outcome f l) as [bs'|e]; [|done].
    injection H as <-. constructor; [done|]. by apply IH.
Qed.

(** ** Padding a partition *)

Lemma max_by_len_from_length (best : Recording) (xs : list Recording) :
  length (max_by_len_from best xs) = Nat.max (length best) (max_len xs).
Proof.
  revert best. induction xs as [|x xs IH]; intros best.
  - cbn. lia.
  - cbn [max_by_len_from]. unfold max_len. cbn [fmap list_fmap foldr].
    fold (max_len xs).
    destruct (Nat.ltb_spec (length best) (length x)); rewrite IH; lia.
Qed.

Lemma max_by_len_from_elem (best : Recording) (xs : list Recording) :
  max_by_len_from best xs ∈ best :: xs.
Proof.
  revert best. induction xs as [|x xs IH]; intros best.
  - left.
  - cbn [max_by_len_from]. destruct (length best <? length x).
    + right. apply IH.
    + specialize (IH best). apply elem_of_cons in IH as [->|?]; [left|by do 2 right].
Qed.

Lemma max_len_ge (p : list Recording) (x : Recording) :
  x ∈ p → length x ≤ max_len p.
Proof.
  induction 1 as [x p|x y p _ IH]; unfold max_len; cbn [fmap list_fmap foldr];
    fold (max_len p); lia.
Qed.

Lemma py_max_by_len_returns (p : list Recording) :
  p ≠ [] → ∃ longest, py_max_by_len p = Returns longest
                      ∧ longest ∈ p ∧ length longest = max_len p.
Proof.
  destruct p as [|x xs]; [done|]. intros _.
  exists (max_by_len_from x xs). split; [done|]. split.
  - apply max_by_len_from_elem.
  - apply max_by_len_from_length.
Qed.

Lemma np_pad_nonneg (x : list Z) (n : nat) :
  length x ≤ n →
  np_pad x (Z.of_nat n - Z.of_nat (length x)) = Returns (x ++ replicate (n - length x) 0%Z).
Proof.
  intros Hle. unfold np_pad.
  destruct (Z.ltb_spec (Z.of_nat n - Z.of_nat (length x)) 0); [lia|].
  do 3 f_equal. lia.
Qed.

Lemma pad_partition_returns (p : list Recording) :
  p ≠ [] → pad_partition p = Returns (padded p).
Proof.
  intros Hp. unfold pad_partition.
  destruct (py_max_by_len_returns p Hp) as (longest & -> & _ & Hlen).
  apply map_outcome_returns. intros x Hx. rewrite Hlen.
  apply np_pad_nonneg. by apply max_len_ge.
Qed.

(** ** The written mixture *)

Lemma padded_length (p : list Recording) : length (padded p) = length p.
Proof. unfold padded. by rewrite length_map. Qed.

Lemma padded_lookup (p : list Recording) (j : nat) (x : Recording) :
  p !! j = Some x →
  padded p !! j = Some (x ++ replicate (max_len p - length x) 0%Z).
Proof. intros H. unfold padded. fmapify. by rewrite list_lookup_fmap, H. Qed.

Lemma padded_row_length (p : list Recording) (r : list Z) :
  r ∈ padded p → length r = max_len p.
Proof.
  unfold padded. fmapify. intros (x & -> & Hx)%list_elem_of_fmap.
  rewrite length_app, length_replicate.
  pose proof (max_len_ge p x Hx). lia.
Qed.

Lemma np_array_padded (p : list Recording) :
  p ≠ [] →
  np_array (padded p) = Arr2 {| shape := (length p, max_len p); rows := padded p |}.
Proof.
  intros Hp. destruct p as [|x xs]; [done|].
  assert (length (x ++ replicate (max_len (x :: xs) - length x) 0%Z)
          = max_len (x :: xs)) as Hrow.
  { apply padded_row_length. unfold padded. cbn [map]. left. }
  unfold np_array, padded in *. cbn [map]. rewrite Hrow.
  cbn [length]. by rewrite length_map.
Qed.

Lemma mixture_channels (rate : nat) (p : list Recording) :
  p ≠ [] → wav_channels (mixture rate p) = length p.
Proof. intros Hp. unfold mixture. by rewrite np_array_padded. Qed.

Lemma mixture_rate (rate : nat) (p : list Recording) :
  p ≠ [] → wav_rate (mixture rate p) = rate.
Proof. intros Hp. unfold mixture. by rewrite np_array_padded. Qed.

Lemma mixture_frames (rate : nat) (p : list Recording) :
  p ≠ [] →
  wav_frames (mixture rate p)
  = map (λ t, map (λ r, nth t r 0%Z) (padded p)) (seq 0 (max_len p)).
Proof. intros Hp. unfold mixture. by rewrite np_array_padded. Qed.

Lemma mixture_frames_length (rate : nat) (p : list Recording) :
  p ≠ [] → length (wav_frames (mixture rate p)) = max_len p.
Proof. intros Hp. by rewrite mixture_frames, length_map, length_seq. Qed.

Lemma mixture_frame_width (rate : nat) (p : list Recording) (fr : list Z) :
  p ≠ [] → fr ∈ wav_frames (mixture rate p) → length fr = length p.
Proof.
  intros Hp. rewrite mixture_frames by done. fmapify.
  intros (t & -> & _)%list_elem_of_fmap. by rewrite length_map, padded_length.
Qed.

(** Channel [j] of the mixture is member [j] followed by zeros. *)
Lemma mixture_channel (rate : nat) (p : list Recording) (j : nat) (x : Recording) :
  p !! j = Some x →
  channel j (mixture rate p) = x ++ replicate (max_len p - length x) 0%Z.
Proof.
  intros Hj. assert (p ≠ []) as Hp by (intros ->; done).
  pose proof (padded_lookup p j x Hj) as Hrow.
  assert (length (x ++ replicate (max_len p - length x) 0%Z) = max_len p) as Hlen.
  { apply padded_row_length. eapply list_elem_of_lookup_2, Hrow. }
  unfold channel. rewrite mixture_frames by done. rewrite map_map.
  etransitivity; [|apply (index_Permutation_eq 0%Z)].
  rewrite Hlen. apply map_ext. intros t.
  rewrite nth_lookup. fmapify. by rewrite list_lookup_fmap, Hrow.
Qed.

(** ** Partitioning *)

Lemma py_range_step_mul (n k : nat) :
  0 < k → py_range_step (n * k) k = Returns (map (λ j, j * k) (seq 0 n)).
Proof.
  intros Hk. unfold py_range_step.
  destruct (Nat.eqb_spec k 0); [lia|].
  replace (n * k + k - 1) with (n * k + (k - 1)) by lia.
  rewrite Nat.div_add_l by done. rewrite (Nat.div_small (k - 1) k) by lia.
  by rewrite Nat.add_0_r.
Qed.

Lemma group_length (k i : nat) (train : list Recording) :
  (i + 1) * k ≤ length train → length (group k i train) = k.
Proof.
  intros H. unfold group. rewrite length_take, length_drop. lia.
Qed.


Lemma groups_lookup (k n i : nat) (train : list Recording) :
  i < n → groups k n train !! i = Some (i, group k i train).
Proof.
  intros Hi. unfold groups. fmapify. rewrite lookup_zip_with.
  rewrite list_lookup_fmap, (lookup_seq_lt 0 n i) by done. done.
Qed.

Lemma groups_fst (k n : nat) (train : list Recording) :
  (groups k n train).*1 = seq 0 n.
Proof.
  unfold groups. apply fst_zip. by rewrite length_map.
Qed.

Lemma groups_elem (k n : nat) (train : list Recording) (ip : nat * list Recording) :
  ip ∈ groups k n train → ip.1 < n ∧ ip.2 = group k ip.1 train.
Proof.
  intros (i & Hi)%list_elem_of_lookup_1.
  assert (i < n) as Hlt.
  { apply lookup_lt_Some in Hi. unfold groups in Hi.
    rewrite length_zip_with, length_seq in Hi. lia. }
  rewrite groups_lookup in Hi by done. by injection Hi as <-.
Qed.

Lemma floordiv_groups_fit (N k hi : nat) :
  0 < hi → k ≤ hi → (N / hi) * k ≤ N.
Proof.
  intros Hhi Hk. pose proof (Nat.Div0.mul_div_le N hi). nia.
Qed.

(** ** Writing a bucket *)

Lemma write_files_cons (rate : nat) (i : nat) (p : list Recording)
    (ips : list (nat * list Recording)) (b : gmap nat WavFile) :
  write_files rate ((i, p) :: ips) b = write_files rate ips (<[i := mixture rate p]> b).
Proof. reflexivity. Qed.

Lemma write_files_not_in (rate : nat) (ips : list (nat * list Recording))
    (b : gmap nat WavFile) (i : nat) :
  i ∉ ips.*1 → write_files rate ips b !! i = b !! i.
Proof.
  revert b. induction ips as [|[i0 p0] ips IH]; intros b Hi; [done|].
  cbn in Hi. apply not_elem_of_cons in Hi as [Hne Hi].
  rewrite write_files_cons, IH by done. by rewrite lookup_insert_ne.
Qed.

Lemma write_files_in (rate : nat) (ips : list (nat * list Recording))
    (b : gmap nat WavFile) (i : nat) (p : list Recording) :
  NoDup ips.*1 → (i, p) ∈ ips → write_files rate ips b !! i = Some (mixture rate p).
Proof.
  revert b. induction ips as [|[i0 p0] ips IH]; intros b Hnd Hin.
  - by apply elem_of_nil in Hin.
  - cbn in Hnd. apply NoDup_cons in Hnd as [Hfresh Hnd].
    rewrite write_files_cons.
    apply elem_of_cons in Hin as [Heq|Hin].
    + injection Heq as <- <-. rewrite write_files_not_in by done.
      apply lookup_insert_eq.
    + by apply IH.
Qed.

Lemma write_files_groups_lt (rate k n i : nat) (train : list Recording)
    (b : gmap nat WavFile) :
  i < n →
  write_files rate (groups k n train) b !! i = Some (mixture rate (group k i train)).
Proof.
  intros Hi. apply write_files_in.
  - rewrite groups_fst. apply NoDup_seq.
  - eapply list_elem_of_lookup_2. by apply groups_lookup.
Qed.

Lemma write_files_groups_ge (rate k n i : nat) (train : list Recording)
    (b : gmap nat WavFile) :
  n ≤ i → write_files rate (groups k n train) b !! i = b !! i.
Proof.
  intros Hi. apply write_files_not_in. rewrite groups_fst.
  rewrite elem_of_seq. lia.
Qed.

Lemma frame_refl (w : World) : frame w w.
Proof. by repeat split. Qed.

Lemma frame_trans (w1 w2 w3 : World) : frame w1 w2 → frame w2 w3 → frame w1 w3.
Proof.
  unfold frame. intros (?&?&?&?&?) (?&?&?&?&?). repeat split; congruence.
Qed.

Lemma base_at_1_length {A : Type} (shuffle : bool) (train : list A) (g : rng) :
  length (base_at shuffle 1 train g).1 = length train.
Proof.
  destruct shuffle; [|done]. cbn.
  pose proof (random_shuffle_length train g). by destruct (random_shuffle train g).
Qed.

Lemma groups_nonempty (k n : nat) (train : list Recording) (ip : nat * list Recording) :
  0 < k → n * k ≤ length train → ip ∈ groups k n train → ip.2 ≠ [].
Proof.
  intros Hk Hn [Hlt ->]%groups_elem.
  assert (length (group k ip.1 train) = k) as Hlen by (apply group_length; nia).
  intros Hnil. rewrite Hnil in Hlen. cbn in Hlen. lia.
Qed.

Lemma base_at_S {A : Type} (shuffle : bool) (j : nat) (train : list A) (g : rng) :
  base_at shuffle (S j) train g
  = base_at shuffle j (base_at shuffle 1 train g).1 (base_at shuffle 1 train g).2.
Proof.
  destruct shuffle; [|done]. cbn. by destruct (random_shuffle train g).
Qed.


Lemma elem_of_py_range (lo hi k : nat) : k ∈ py_range lo (hi + 1) ↔ lo ≤ k ≤ hi.
Proof. unfold py_range. rewrite elem_of_seq. lia. Qed.

Lemma py_range_lookup (lo hi k : nat) :
  lo ≤ k ≤ hi → py_range lo (hi + 1) !! (k - lo) = Some k.
Proof. intros H. unfold py_range. apply lookup_seq. lia. Qed.

Lemma bucket_lookup (f : FileSystem) (dest : string) (k : nat) (b : gmap nat WavFile) :
  buckets f !! (dest, k) = Some b → bucket f dest k = b.
Proof. intros H. unfold bucket. by rewrite H. Qed.

Lemma bucket_unchanged (f f' : FileSystem) (dest : string) (k : nat) :
  buckets f' !! (dest, k) = buckets f !! (dest, k) → bucket f' dest k = bucket f dest k.
Proof. intros H. unfold bucket. by rewrite H. Qed.

Section Generation.
Variable self : DataLoader.
Let rate := N.to_nat (sampled_at self).

Lemma write_partition_run (dest : string) (k i : nat) (p : list Recording) (w : World) :
  p ≠ [] →
  write_partition self dest k (i, p) w
  = write_wav dest k i (mixture rate p) w.
Proof.
  intros Hp. unfold write_partition. rewrite run_bind. unfold lift.
  by rewrite pad_partition_returns.
Qed.

Lemma write_loop (dest : string) (k : nat) (ips : list (nat * list Recording)) :
  ∀ (w : World) (b : gmap nat WavFile),
    buckets (fs w) !! (dest, k) = Some b →
    (∀ ip, ip ∈ ips → ip.2 ≠ []) →
    ∃ w', for_each ips (write_partition self dest k) w = (Returns (), w')
          ∧ frame w w'
          ∧ py_random w' = py_random w
          ∧ directories (fs w') = directories (fs w)
          ∧ buckets (fs w') = <[(dest, k) := write_files rate ips b]> (buckets (fs w)).
Proof.
  induction ips as [|[i p] ips IH]; intros w b Hb Hne.
  - exists w. repeat split; try done. cbn. by rewrite insert_id.
  - unfold for_each. cbn [foldM]. rewrite run_bind.
    rewrite write_partition_run by (apply (Hne (i, p)); left).
    cbn [write_wav]. fold (for_each ips (write_partition self dest k)).
    unfold bucket. rewrite Hb. cbn [default].
    match goal with |- context [for_each _ _ ?w1] =>
      destruct (IH w1 (<[i := mixture rate p]> b))
        as (w' & Hrun & Hfr & Hpy & Hdir & Hbk)
    end.
    { cbn. apply lookup_insert_eq. }
    { intros ip Hip. apply Hne. by right. }
    exists w'. split; [exact Hrun|]. repeat split; try apply Hfr; try done.
    rewrite Hbk. cbn. by rewrite insert_insert_eq.
Qed.

Lemma create_concurrent_speakers_run (train : list Recording) (dest : string)
    (k n : nat) (shuffle : bool) (w : World) :
  0 < k → n * k ≤ length train →
  let train' := (base_at shuffle 1 train (py_random w)).1 in
  ∃ w', create_concurrent_speakers self train dest k n shuffle w = (Returns train', w')
        ∧ frame w w'
        ∧ py_random w' = (base_at shuffle 1 train (py_random w)).2
        ∧ directories (fs w') = {[dest]} ∪ directories (fs w)
        ∧ buckets (fs w')
          = <[(dest, k) := write_files rate (groups k n train') (bucket (fs w) dest k)]>
              (buckets (fs w)).
Proof.
  intros Hk Hn train'.
  assert (length train' = length train) as Hlen by apply base_at_1_length.
  unfold create_concurrent_speakers. rewrite run_bind. cbn [mkdir_bucket].
  set (w1 := set_fs _ w).
  assert (∃ w2, (if shuffle then py_shuffle train else ret train) w1 = (Returns train', w2)
                ∧ fs w2 = fs w1 ∧ frame w w2
                ∧ py_random w2 = (base_at shuffle 1 train (py_random w)).2)
    as (w2 & Hsh & Hfs & Hfr & Hpy).
  { subst train'. destruct shuffle; cbn.
    - unfold py_shuffle. cbn. destruct (random_shuffle train (py_random w)) as [t g].
      eexists. split; [reflexivity|]. by repeat split.
    - eexists. split; [reflexivity|]. by repeat split. }
  rewrite run_bind, Hsh. rewrite run_bind. unfold lift at 1.
  rewrite py_range_step_mul by done. rewrite map_map, length_map, length_seq.
  fold (groups k n train'). rewrite run_bind.
  destruct (write_loop dest k (groups k n train') w2
              (write_files rate [] (bucket (fs w) dest k)))
    as (w3 & Hrun & Hfr3 & Hpy3 & Hdir3 & Hbk3).
  { rewrite Hfs. cbn. apply lookup_insert_eq. }
  { intros ip. apply groups_nonempty; [done|lia]. }
  change (map (λ x, take k (drop (x * k) train')) (seq 0 n))
    with (map (λ i, group k i train') (seq 0 n)).
  fold (groups k n train'). rewrite Hrun.
  exists w3. split; [done|]. split; [by eapply frame_trans|].
  split; [congruence|]. rewrite Hdir3, Hbk3, Hfs. cbn.
  split; [done|]. by rewrite insert_insert_eq.
Qed.

(** The loop over the speaker counts of one split. *)
Lemma speaker_loop (dest : string) (n : nat) (shuffle : bool) (ks : list nat) :
  ∀ (data : list Recording) (w : World),
    NoDup ks →
    (∀ k, k ∈ ks → 0 < k ∧ n * k ≤ length data) →
    ∃ w', foldM (λ data i, create_concurrent_speakers self data dest i n shuffle) data ks w
          = (Returns (base_at shuffle (length ks) data (py_random w)).1, w')
          ∧ frame w w'
          ∧ py_random w' = (base_at shuffle (length ks) data (py_random w)).2
          ∧ directories (fs w')
            = (if ks is [] then directories (fs w) else {[dest]} ∪ directories (fs w))
          ∧ (∀ d k, d ≠ dest ∨ k ∉ ks →
               buckets (fs w') !! (d, k) = buckets (fs w) !! (d, k))
          ∧ (∀ j k, ks !! j = Some k →
               buckets (fs w') !! (dest, k)
               = Some (write_files rate
                         (groups k n (base_at shuffle (S j) data (py_random w)).1)
                         (bucket (fs w) dest k))).
Proof.
  induction ks as [|k ks IH]; intros data w Hnd Hks.
  - exists w. cbn [foldM length]. split; [by destruct shuffle|].
    split; [apply frame_refl|]. split; [by destruct shuffle|].
    split; [done|]. split; [done|]. intros j k Hj. done.
  - apply NoDup_cons in Hnd as [Hfresh Hnd].
    destruct (Hks k) as [Hk Hfit]; [left|].
    cbn [foldM]. rewrite run_bind.
    destruct (create_concurrent_speakers_run data dest k n shuffle w Hk Hfit)
      as (w1 & Hrun1 & Hfr1 & Hpy1 & Hdir1 & Hbk1).
    cbn zeta in Hrun1, Hbk1. rewrite Hrun1.
    set (data1 := (base_at shuffle 1 data (py_random w)).1) in *.
    destruct (IH data1 w1 Hnd) as (w' & Hrun & Hfr & Hpy & Hdir & Hout & Hin).
    { intros k' Hk'. destruct (Hks k') as [? ?]; [by right|].
      split; [done|]. subst data1. by rewrite base_at_1_length. }
    exists w'. cbn [length]. rewrite base_at_S. fold data1. rewrite <- Hpy1.
    split; [exact Hrun|]. split; [by eapply frame_trans|]. split; [exact Hpy|].
    split; [|split].
    + rewrite Hdir, Hdir1. destruct ks; [done|].
      by rewrite (assoc_L (∪)), (idemp_L (∪)).
    + intros d k' Hdk. rewrite Hout, Hbk1.
      * apply lookup_insert_ne. intros [= <- <-].
        destruct Hdk as [?|Hk']; [done|]. apply Hk'. left.
      * destruct Hdk as [?|Hk']; [by left|]. right. intros ?. apply Hk'. by right.
    + intros [|j] k' Hj.
      * injection Hj as <-. rewrite Hout by (by right).
        rewrite Hbk1. apply lookup_insert_eq.
      * cbn in Hj. rewrite (Hin j k' Hj).
        rewrite (base_at_S shuffle (S j) data). fold data1.
        rewrite <- Hpy1. do 2 f_equal. unfold bucket. rewrite Hbk1.
        rewrite lookup_insert_ne; [done|]. intros [= <-].
        apply Hfresh. eapply list_elem_of_lookup_2, Hj.
Qed.

(** One split: every bucket [k] receives the mixtures of the first
    [N // max_speakers] groups of [k] recordings of the list as it is
    when the loop reaches [k]. *)
Lemma generate_split_run (src dest : string) (shuffle : bool) (w : World) :
  0 < min_speakers self → 0 < max_speakers self →
  let data := recordings (fs w) src in
  let n := length data / max_speakers self in
  let ks := py_range (min_speakers self) (max_speakers self + 1) in
  ∃ w', generate_split self (src, dest, shuffle) w = (Returns (), w')
        ∧ frame w w'
        ∧ py_random w' = (base_at shuffle (length ks) data (py_random w)).2
        ∧ directories (fs w')
          = (if ks is [] then directories (fs w) else {[dest]} ∪ directories (fs w))
        ∧ (∀ d k, d ≠ dest ∨ ¬ (min_speakers self ≤ k ≤ max_speakers self) →
             buckets (fs w') !! (d, k) = buckets (fs w) !! (d, k))
        ∧ (∀ k, min_speakers self ≤ k ≤ max_speakers self →
             buckets (fs w') !! (dest, k)
             = Some (write_files rate
                       (groups k n (base_at shuffle (S (k - min_speakers self)) data
                                      (py_random w)).1)
                       (bucket (fs w) dest k))).
Proof.
  intros Hmin Hmax data n ks.
  unfold generate_split. rewrite run_bind. cbn [read_sources]. fold data.
  rewrite run_bind. unfold lift, floordiv.
  destruct (Nat.eqb_spec (max_speakers self) 0) as [|_]; [lia|]. fold n.
  rewrite run_bind. fold ks.
  destruct (speaker_loop dest n shuffle ks data w)
    as (w' & Hrun & Hfr & Hpy & Hdir & Hout & Hin).
  { apply NoDup_seq. }
  { intros k [Hlo Hhi]%elem_of_py_range. split; [lia|].
    by apply floordiv_groups_fit. }
  rewrite Hrun. exists w'. split; [done|]. split; [done|]. split; [done|].
  split; [done|]. split.
  - intros d k Hdk. apply Hout. destruct Hdk as [?|Hk]; [by left|].
    right. unfold ks. by rewrite elem_of_py_range.
  - intros k Hk. apply Hin. by apply py_range_lookup.
Qed.

(** Both splits: the train split is written first, from the list as
    the shuffles leave it; the test split second, from the list as it
    was read. *)
Lemma generate_datasets_run (w : World) :
  0 < min_speakers self → 0 < max_speakers self →
  let ks := py_range (min_speakers self) (max_speakers self + 1) in
  let tr := recordings (fs w) (train_src_dir self) in
  let te := recordings (fs w) (test_src_dir self) in
  let in_range k := min_speakers self ≤ k ≤ max_speakers self in
  ∃ w', generate_datasets self w = (Returns (), w')
        ∧ wav_sources (fs w') = wav_sources (fs w)
        ∧ npy_files (fs w') = npy_files (fs w)
        ∧ np_random w' = np_random w
        ∧ attrs w' = attrs w
        ∧ log w' = log w ++ ["Generating data"; "Data generated"]
        ∧ py_random w' = (base_at true (length ks) tr (py_random w)).2
        ∧ directories (fs w')
          = (if ks is [] then directories (fs w)
             else {[test_dest_dir self]} ∪ ({[train_dest_dir self]} ∪ directories (fs w)))
        ∧ (∀ d k, (d ≠ train_dest_dir self ∧ d ≠ test_dest_dir self) ∨ ¬ in_range k →
             buckets (fs w') !! (d, k) = buckets (fs w) !! (d, k))
        ∧ (∀ k, in_range k →
             ∃ b, buckets (fs w') !! (test_dest_dir self, k)
                  = Some (write_files rate
                            (groups k (length te / max_speakers self) te) b)
                  ∧ (train_dest_dir self ≠ test_dest_dir self →
                     b = bucket (fs w) (test_dest_dir self) k))
        ∧ (train_dest_dir self ≠ test_dest_dir self →
           ∀ k, in_range k →
             buckets (fs w') !! (train_dest_dir self, k)
             = Some (write_files rate
                       (groups k (length tr / max_speakers self)
                          (base_at true (S (k - min_speakers self)) tr (py_random w)).1)
                       (bucket (fs w) (train_dest_dir self) k))).
Proof.
  intros Hmin Hmax ks tr te in_range.
  unfold generate_datasets. rewrite run_bind. cbn [write_log].
  set (w0 := set_log _ w).
  rewrite run_bind. unfold for_each. cbn [foldM]. rewrite run_bind.
  destruct (generate_split_run (train_src_dir self) (train_dest_dir self) true w0 Hmin Hmax)
    as (w1 & Hrun1 & Hfr1 & Hpy1 & Hdir1 & Hout1 & Hin1).
  rewrite Hrun1. rewrite run_bind.
  destruct (generate_split_run (test_src_dir self) (test_dest_dir self) false w1 Hmin Hmax)
    as (w2 & Hrun2 & Hfr2 & Hpy2 & Hdir2 & Hout2 & Hin2).
  rewrite Hrun2. cbn [ret write_log].
  destruct Hfr1 as (Hs1 & Hn1 & Hr1 & Hl1 & Ha1).
  destruct Hfr2 as (Hs2 & Hn2 & Hr2 & Hl2 & Ha2).
  subst w0.
  cbn [fs set_log log py_random np_random attrs]
    in Hs1, Hn1, Hr1, Hl1, Ha1, Hpy1, Hdir1, Hout1, Hin1.
  cbn [base_at snd fst] in Hpy2, Hin2.
  assert (recordings (fs w1) (test_src_dir self) = te) as Hte.
  { unfold recordings, te. by rewrite Hs1. }
  rewrite Hte in Hin2.
  eexists. split; [reflexivity|].
  cbn [fs set_log log py_random np_random attrs].
  split; [by rewrite Hs2|]. split; [by rewrite Hn2|]. split; [by rewrite Hr2|].
  split; [by rewrite Ha2|]. split.
  { rewrite Hl2, Hl1. by rewrite <- (assoc_L (++)). }
  split; [by rewrite Hpy2|]. split.
  { rewrite Hdir2, Hdir1. fold ks. by destruct ks. }
  split; [|split].
  - intros d k Hdk. unfold in_range in Hdk. rewrite Hout2, Hout1; [done|..]; tauto.
  - intros k Hk. eexists. split; [apply Hin2, Hk|].
    intros Hne. unfold bucket. rewrite Hout1; [done|]. left. congruence.
  - intros Hne k Hk. rewrite Hout2 by (by left). by rewrite Hin1.
Qed.

(** The generated layout, file by file. *)
Lemma generate_datasets_layout (w : World) :
  0 < min_speakers self → 0 < max_speakers self →
  let tr := recordings (fs w) (train_src_dir self) in
  let te := recordings (fs w) (test_src_dir self) in
  let ntr := length tr / max_speakers self in
  let nte := length te / max_speakers self in
  ∃ w', generate_datasets self w = (Returns (), w')
        ∧ (∀ k i, min_speakers self ≤ k ≤ max_speakers self → i < nte →
             bucket (fs w') (test_dest_dir self) k !! i
             = Some (mixture rate (group k i te)))
        ∧ (train_dest_dir self ≠ test_dest_dir self →
           ∀ k i, min_speakers self ≤ k ≤ max_speakers self →
             (i < ntr →
              bucket (fs w') (train_dest_dir self) k !! i
              = Some (mixture rate
                        (group k i (shuffled_at (S (k - min_speakers self)) tr
                                      (py_random w)).1)))
             ∧ (ntr ≤ i →
                bucket (fs w') (train_dest_dir self) k !! i
                = bucket (fs w) (train_dest_dir self) k !! i)
             ∧ (nte ≤ i →
                bucket (fs w') (test_dest_dir self) k !! i
                = bucket (fs w) (test_dest_dir self) k !! i)).
Proof.
  intros Hmin Hmax tr te ntr nte.
  destruct (generate_datasets_run w Hmin Hmax)
    as (w' & Hrun & _ & _ & _ & _ & _ & _ & _ & _ & Hte & Htr).
  exists w'. split; [done|]. split.
  - intros k i Hk Hi. destruct (Hte k Hk) as (b & Hb & _).
    rewrite (bucket_lookup _ _ _ _ Hb). by apply write_files_groups_lt.
  - intros Hne k i Hk. specialize (Htr Hne k Hk).
    destruct (Hte k Hk) as (b & Hb & Hbb). specialize (Hbb Hne). subst b.
    rewrite (bucket_lookup _ _ _ _ Htr), (bucket_lookup _ _ _ _ Hb).
    split; [|split]; intros Hi.
    + by apply write_files_groups_lt.
    + by apply write_files_groups_ge.
    + by apply write_files_groups_ge.
Qed.
End Generation.

Lemma size_prefix {V : Type} (m : gmap nat V) (n : nat) :
  (∀ i, i < n → is_Some (m !! i)) → (∀ i, n ≤ i → m !! i = None) → size m = n.
Proof.
  intros Hlt Hge. rewrite <- (size_dom (D := gset nat)).
  assert (dom m = set_seq 0 n) as ->; [|apply size_set_seq].
  apply set_eq. intros i. rewrite elem_of_dom, elem_of_set_seq.
  split.
  - intros Hi. destruct (decide (i < n)); [lia|].
    rewrite Hge in Hi by lia. by destruct Hi.
  - intros [_ Hi]. apply Hlt. lia.
Qed.

Lemma bucket_files_length (f : FileSystem) (dest : string) (k : nat) :
  length (bucket_files f dest k) = size (bucket f dest k).
Proof. unfold bucket_files. by rewrite length_fmap, length_map_to_list. Qed.

(** * Generation *)

(** C4: a split whose source directory yields [N] recordings gets exactly
    [N // max_speakers] mixture files in every bucket [k] of
    [min_speakers .. max_speakers]: generation returns without an error,
    writes the indices below [N // max_speakers] and no other, so a bucket
    that was empty lists exactly that many files; when [N < max_speakers]
    nothing is written. *)
Theorem generation_fills_every_bucket (self : DataLoader) (w : World) :
  0 < min_speakers self → 0 < max_speakers self →
  train_dest_dir self ≠ test_dest_dir self →
  ∃ w', generate_datasets self w = (Returns (), w')
        ∧ ∀ src dest,
            (src, dest) ∈ [(train_src_dir self, train_dest_dir self);
                           (test_src_dir self, test_dest_dir self)] →
            ∀ k, min_speakers self ≤ k ≤ max_speakers self →
              let n := length (recordings (fs w) src) / max_speakers self in
              (∀ i, i < n → is_Some (bucket (fs w') dest k !! i))
              ∧ (∀ i, n ≤ i → bucket (fs w') dest k !! i = bucket (fs w) dest k !! i)
              ∧ (bucket (fs w) dest k = ∅ → length (bucket_files (fs w') dest k) = n)
              ∧ (length (recordings (fs w) src) < max_speakers self →
                 bucket (fs w') dest k = bucket (fs w) dest k).
Proof.
  intros Hmin Hmax Hne.
  destruct (generate_datasets_layout self w Hmin Hmax) as (w' & Hrun & Hte & Htr).
  specialize (Htr Hne). exists w'. split; [done|].
  intros src dest Hsd k Hk n.
  assert ((∀ i, i < n → is_Some (bucket (fs w') dest k !! i))
          ∧ (∀ i, n ≤ i → bucket (fs w') dest k !! i = bucket (fs w) dest k !! i))
    as [Hlt Hge].
  { apply elem_of_cons in Hsd as [[= -> ->]|Hsd].
    - split; intros i Hi; destruct (Htr k i Hk) as (H1 & H2 & _); eauto.
    - apply list_elem_of_singleton in Hsd as [= -> ->].
      split; intros i Hi; [rewrite Hte by done; eauto|].
      destruct (Htr k i Hk) as (_ & _ & H3); eauto. }
  split; [done|]. split; [done|]. split.
  - intros Hempty. rewrite bucket_files_length. apply size_prefix; [done|].
    intros i Hi. by rewrite Hge, Hempty.
  - intros Hsmall. apply map_eq. intros i. apply Hge.
    unfold n. rewrite Nat.div_small by done. lia.
Qed.

Lemma generation_fills_every_bucket_witness :
  0 < min_speakers timit ∧ 0 < max_speakers timit
  ∧ train_dest_dir timit ≠ test_dest_dir timit
  ∧ ∃ w', generate_datasets timit studio = (Returns (), w')
          ∧ length (bucket_files (fs w') "data/train" 7) = 2
          ∧ length (bucket_files (fs w') "data/test" 20) = 1.
Proof.
  assert (0 < min_speakers timit) as Hmin by (cbn; lia).
  assert (0 < max_speakers timit) as Hmax by (cbn; lia).
  assert (train_dest_dir timit ≠ test_dest_dir timit) as Hne by done.
  split; [done|]. split; [done|]. split; [done|].
  destruct (generation_fills_every_bucket timit studio Hmin Hmax Hne) as (w' & Hrun & H).
  exists w'. split; [done|]. split.
  - destruct (H "TIMIT/TRAIN" "data/train") with (k := 7) as (_ & _ & Hn & _);
      [left|cbn; lia|]. by apply Hn.
  - destruct (H "TIMIT/TEST" "data/test") with (k := 20) as (_ & _ & Hn & _);
      [right; left|cbn; lia|]. by apply Hn.
Defined.

Lemma max_len_attained (p : list Recording) :
  p ≠ [] → ∃ x, x ∈ p ∧ length x = max_len p.
Proof.
  intros Hp. destruct (py_max_by_len_returns p Hp) as (x & _ & Hx & Hlen). eauto.
Qed.

Lemma group_elem (k i : nat) (train : list Recording) (x : Recording) :
  x ∈ group k i train → x ∈ train.
Proof.
  unfold group. intros Hx. by apply subseteq_take, subseteq_drop in Hx.
Qed.

(** What the file of a partition of [k] recordings looks like. *)
Lemma mixture_shape (rate k : nat) (p : list Recording) :
  0 < k → length p = k →
  wav_channels (mixture rate p) = k
  ∧ (∀ fr, fr ∈ wav_frames (mixture rate p) → length fr = k)
  ∧ length (wav_frames (mixture rate p)) = max_len p
  ∧ (∀ j, j < k → length (channel j (mixture rate p)) = max_len p)
  ∧ (∀ j x, p !! j = Some x →
       channel j (mixture rate p) = x ++ replicate (max_len p - length x) 0%Z).
Proof.
  intros Hk Hlen. assert (p ≠ []) as Hp by (intros ->; cbn in Hlen; lia).
  split; [by rewrite mixture_channels|].
  split; [intros fr Hfr; rewrite <- Hlen; by eapply mixture_frame_width|].
  split; [by apply mixture_frames_length|].
  split; [|intros j x; apply mixture_channel].
  intros j Hj. unfold channel. rewrite length_map. by apply mixture_frames_length.
Qed.

(** C5: every partition written for speaker count [k] becomes a file of
    exactly [k] channels; every channel has the length of the longest of
    the [k] recordings of the partition, and channel [j] is recording [j]
    followed by zeros. *)
Theorem mixture_file_channels (self : DataLoader) (w : World) :
  0 < min_speakers self → 0 < max_speakers self →
  train_dest_dir self ≠ test_dest_dir self →
  ∃ w', generate_datasets self w = (Returns (), w')
        ∧ ∀ src dest,
            (src, dest) ∈ [(train_src_dir self, train_dest_dir self);
                           (test_src_dir self, test_dest_dir self)] →
            ∀ k i, min_speakers self ≤ k ≤ max_speakers self →
              i < length (recordings (fs w) src) / max_speakers self →
              ∃ file partition,
                bucket (fs w') dest k !! i = Some file
                ∧ length partition = k
                ∧ (∀ x, x ∈ partition → x ∈ recordings (fs w) src)
                ∧ (∀ x, x ∈ partition → length x ≤ max_len partition)
                ∧ (∃ x, x ∈ partition ∧ length x = max_len partition)
                ∧ wav_channels file = k
                ∧ (∀ fr, fr ∈ wav_frames file → length fr = k)
                ∧ (∀ j, j < k → length (channel j file) = max_len partition)
                ∧ (∀ j x, partition !! j = Some x →
                     channel j file = x ++ replicate (max_len partition - length x) 0%Z).
Proof.
  intros Hmin Hmax Hne.
  destruct (generate_datasets_layout self w Hmin Hmax) as (w' & Hrun & Hte & Htr).
  specialize (Htr Hne). exists w'. split; [done|].
  intros src dest Hsd k i Hk Hi.
  assert (∃ base, base ≡ₚ recordings (fs w) src
                  ∧ bucket (fs w') dest k !! i
                    = Some (mixture (N.to_nat (sampled_at self)) (group k i base)))
    as (base & Hperm & Hfile).
  { apply elem_of_cons in Hsd as [[= -> ->]|Hsd].
    - eexists. split; [apply shuffled_at_Permutation|].
      destruct (Htr k i Hk) as (H1 & _). by apply H1.
    - apply list_elem_of_singleton in Hsd as [= -> ->].
      eexists. split; [reflexivity|]. by apply Hte. }
  assert (length (group k i base) = k) as Hlen.
  { apply group_length. rewrite (Permutation_length Hperm).
    pose proof (floordiv_groups_fit (length (recordings (fs w) src)) k
                  (max_speakers self) Hmax (proj2 Hk)). nia. }
  assert (0 < k) as Hpos by lia.
  assert (group k i base ≠ []) as Hnil by (intros E; rewrite E in Hlen; cbn in Hlen; lia).
  destruct (mixture_shape (N.to_nat (sampled_at self)) k _ Hpos Hlen)
    as (Hch & Hfr & _ & Hcl & Hcj).
  exists (mixture (N.to_nat (sampled_at self)) (group k i base)), (group k i base).
  split; [done|]. split; [done|]. split.
  { intros x Hx. rewrite <- Hperm. by eapply group_elem. }
  split; [apply max_len_ge|]. split; [by apply max_len_attained|]. done.
Qed.

Lemma mixture_file_channels_witness :
  0 < min_speakers timit ∧ 0 < max_speakers timit
  ∧ train_dest_dir timit ≠ test_dest_dir timit
  ∧ ∃ w' file, generate_datasets timit studio = (Returns (), w')
               ∧ bucket (fs w') "data/train" 5 !! 1 = Some file
               ∧ wav_channels file = 5.
Proof.
  assert (0 < min_speakers timit) as Hmin by (cbn; lia).
  assert (0 < max_speakers timit) as Hmax by (cbn; lia).
  assert (train_dest_dir timit ≠ test_dest_dir timit) as Hne by done.
  split; [done|]. split; [done|]. split; [done|].
  destruct (mixture_file_channels timit studio Hmin Hmax Hne) as (w' & Hrun & H).
  destruct (H "TIMIT/TRAIN" "data/train") with (k := 5) (i := 1)
    as (file & partition & Hfile & _ & _ & _ & _ & Hch & _);
    [left|cbn; lia|vm_compute; lia|].
  exists w', file. split; [exact Hrun|]. split; [exact Hfile|exact Hch].
Defined.

(** C9: for every member of a non-empty partition the pad width, the
    length of the longest member minus the member's own length, is not
    negative, so [np.pad] accepts it and padding the partition returns
    one row per member. *)
Theorem pad_width_nonnegative (partition : list Recording) :
  partition ≠ [] →
  ∃ longest,
    py_max_by_len partition = Returns longest
    ∧ (∀ x, x ∈ partition →
         (0 ≤ Z.of_nat (length longest) - Z.of_nat (length x))%Z
         ∧ np_pad x (Z.of_nat (length longest) - Z.of_nat (length x))
           = Returns (x ++ replicate (length longest - length x) 0%Z))
    ∧ ∃ padded_rows, pad_partition partition = Returns padded_rows
                     ∧ length padded_rows = length partition.
Proof.
  intros Hp. destruct (py_max_by_len_returns partition Hp) as (longest & Hmax & _ & Hlen).
  exists longest. split; [done|]. split.
  - intros x Hx. pose proof (max_len_ge partition x Hx) as Hle. rewrite <- Hlen in Hle.
    split; [lia|]. by apply np_pad_nonneg.
  - exists (padded partition). split; [by apply pad_partition_returns|apply padded_length].
Qed.

Lemma pad_width_nonnegative_witness :
  [[1; 2; 3]; [4]; [5; 6]]%Z ≠ []
  ∧ ∃ padded_rows, pad_partition [[1; 2; 3]; [4]; [5; 6]]%Z = Returns padded_rows
                   ∧ length padded_rows = 3.
Proof.
  assert ([[1; 2; 3]; [4]; [5; 6]]%Z ≠ []) as Hp by done.
  split; [done|].
  destruct (pad_width_nonnegative _ Hp) as (longest & _ & _ & rows & Hrows & Hlen).
  by exists rows.
Defined.

Lemma shuffled_at_S_last {A : Type} (j : nat) (x : list A) (g : rng) :
  shuffled_at (S j) x g
  = random_shuffle (shuffled_at j x g).1 (shuffled_at j x g).2.
Proof.
  revert x g. induction j as [|j IH]; intros x g.
  - cbn [shuffled_at fst snd]. by destruct (random_shuffle x g).
  - change (shuffled_at (S (S j)) x g)
      with (let '(x', g') := random_shuffle x g in shuffled_at (S j) x' g').
    change (shuffled_at (S j) x g)
      with (let '(x', g') := random_shuffle x g in shuffled_at j x' g').
    destruct (random_shuffle x g) as [x' g']. apply IH.
Qed.

Lemma py_range_length (lo hi : nat) : length (py_range lo hi) = hi - lo.
Proof. apply length_seq. Qed.

(** C10: only the train split draws from the generator.  The test split
    is partitioned from its recordings in the order they were read, so
    its files are the same whatever the generator and the train
    recordings are. *)
Theorem test_split_not_shuffled (self : DataLoader) (w1 w2 : World) :
  0 < min_speakers self → 0 < max_speakers self →
  recordings (fs w1) (test_src_dir self) = recordings (fs w2) (test_src_dir self) →
  ∃ w1' w2',
    generate_datasets self w1 = (Returns (), w1')
    ∧ generate_datasets self w2 = (Returns (), w2')
    ∧ py_random w1'
      = (shuffled_at (max_speakers self + 1 - min_speakers self)
           (recordings (fs w1) (train_src_dir self)) (py_random w1)).2
    ∧ ∀ k i, min_speakers self ≤ k ≤ max_speakers self →
        i < length (recordings (fs w1) (test_src_dir self)) / max_speakers self →
        bucket (fs w1') (test_dest_dir self) k !! i
        = Some (mixture (N.to_nat (sampled_at self))
                  (group k i (recordings (fs w1) (test_src_dir self))))
        ∧ bucket (fs w2') (test_dest_dir self) k !! i
          = bucket (fs w1') (test_dest_dir self) k !! i.
Proof.
  intros Hmin Hmax Hsame.
  destruct (generate_datasets_layout self w1 Hmin Hmax) as (w1' & Hrun1 & Hte1 & _).
  destruct (generate_datasets_layout self w2 Hmin Hmax) as (w2' & Hrun2 & Hte2 & _).
  destruct (generate_datasets_run self w1 Hmin Hmax)
    as (w1'' & Hrun1' & _ & _ & _ & _ & _ & Hpy & _).
  rewrite Hrun1 in Hrun1'. injection Hrun1' as <-.
  exists w1', w2'. split; [done|]. split; [done|]. split.
  - rewrite Hpy. cbn [base_at]. by rewrite py_range_length.
  - intros k i Hk Hi. split; [by apply Hte1|].
    rewrite Hte1 by done. rewrite Hsame in Hi |- *. by apply Hte2.
Qed.

Lemma test_split_not_shuffled_witness :
  0 < min_speakers timit ∧ 0 < max_speakers timit
  ∧ recordings (fs studio) (test_src_dir timit) = recordings (fs studio') (test_src_dir timit)
  ∧ ∃ w1' w2',
      generate_datasets timit studio = (Returns (), w1')
      ∧ generate_datasets timit studio' = (Returns (), w2')
      ∧ bucket (fs w2') "data/test" 9 !! 0 = bucket (fs w1') "data/test" 9 !! 0.
Proof.
  assert (0 < min_speakers timit) as Hmin by (cbn; lia).
  assert (0 < max_speakers timit) as Hmax by (cbn; lia).
  assert (recordings (fs studio) (test_src_dir timit)
          = recordings (fs studio') (test_src_dir timit)) as Hsame
    by (vm_compute; reflexivity).
  split; [exact Hmin|]. split; [exact Hmax|]. split; [exact Hsame|].
  destruct (test_split_not_shuffled timit studio studio' Hmin Hmax Hsame)
    as (w1' & w2' & Hrun1 & Hrun2 & _ & H).
  exists w1', w2'. split; [exact Hrun1|]. split; [exact Hrun2|].
  destruct (H 9 0) as [_ Heq]; [cbn; lia|vm_compute; lia|exact Heq].
Defined.

(** C1, as the code has it: with shuffling on, the list of recordings is
    shuffled in place at the start of every call that builds a bucket.
    Bucket [k] is partitioned from the list after [k - min_speakers + 1]
    shuffles, which is the shuffle of the list the previous bucket was
    partitioned from; every such list is a permutation of the recordings
    read. *)
Theorem shuffled_before_every_bucket (self : DataLoader) (w : World) :
  0 < min_speakers self → 0 < max_speakers self →
  train_dest_dir self ≠ test_dest_dir self →
  let data := recordings (fs w) (train_src_dir self) in
  let base j := shuffled_at j data (py_random w) in
  ∃ w', generate_datasets self w = (Returns (), w')
        ∧ py_random w' = (base (max_speakers self + 1 - min_speakers self)).2
        ∧ ∀ k, min_speakers self ≤ k ≤ max_speakers self →
            let j := k - min_speakers self in
            base (S j) = random_shuffle (base j).1 (base j).2
            ∧ (base (S j)).1 ≡ₚ data
            ∧ ∀ i, i < length data / max_speakers self →
                bucket (fs w') (train_dest_dir self) k !! i
                = Some (mixture (N.to_nat (sampled_at self)) (group k i (base (S j)).1)).
Proof.
  intros Hmin Hmax Hne data base.
  destruct (generate_datasets_layout self w Hmin Hmax) as (w' & Hrun & _ & Htr).
  specialize (Htr Hne).
  destruct (generate_datasets_run self w Hmin Hmax)
    as (w'' & Hrun' & _ & _ & _ & _ & _ & Hpy & _).
  rewrite Hrun in Hrun'. injection Hrun' as <-.
  exists w'. split; [done|]. split.
  - rewrite Hpy. cbn [base_at]. by rewrite py_range_length.
  - intros k Hk j. split; [apply shuffled_at_S_last|].
    split; [apply shuffled_at_Permutation|].
    intros i Hi. destruct (Htr k i Hk) as (H1 & _). by apply H1.
Qed.

Lemma shuffled_before_every_bucket_witness :
  0 < min_speakers timit ∧ 0 < max_speakers timit
  ∧ train_dest_dir timit ≠ test_dest_dir timit
  ∧ ∃ w', generate_datasets timit studio = (Returns (), w')
          ∧ bucket (fs w') "data/train" 3 !! 0
            = Some (mixture (N.to_nat (sampled_at timit))
                      (group 3 0 (shuffled_at 2 (recordings corpus "TIMIT/TRAIN")
                                    (draws 7 3)).1)).
Proof.
  assert (0 < min_speakers timit) as Hmin by (cbn; lia).
  assert (0 < max_speakers timit) as Hmax by (cbn; lia).
  assert (train_dest_dir timit ≠ test_dest_dir timit) as Hne by done.
  split; [exact Hmin|]. split; [exact Hmax|]. split; [exact Hne|].
  destruct (shuffled_before_every_bucket timit studio Hmin Hmax Hne)
    as (w' & Hrun & _ & H).
  exists w'. split; [exact Hrun|].
  destruct (H 3) as (_ & _ & Hfile); [cbn; lia|].
  apply (Hfile 0). vm_compute; lia.
Defined.

(** C1, as stated, fails: were all buckets partitioned from one and the
    same list, the first file of bucket 2 and the first file of bucket 3
    would start with the same recording.  On the corpus they start with
    different ones. *)
Lemma one_shuffle_for_all_buckets_fails :
  ∃ w', generate_datasets timit studio = (Returns (), w')
        ∧ ¬ ∃ p : list Recording,
              ∀ k i, min_speakers timit ≤ k ≤ max_speakers timit →
                i < length (recordings (fs studio) (train_src_dir timit)) / max_speakers timit →
                bucket (fs w') (train_dest_dir timit) k !! i
                = Some (mixture (N.to_nat (sampled_at timit)) (group k i p)).
Proof.
  exists (generate_datasets timit studio).2. split.
  { assert ((generate_datasets timit studio).1 = Returns ()) as E
      by (vm_compute; reflexivity).
    transitivity ((generate_datasets timit studio).1, (generate_datasets timit studio).2);
      [apply surjective_pairing|]. rewrite E. reflexivity. }
  intros (p & H).
  assert (bucket (fs (generate_datasets timit studio).2) "data/train" 2 !! 0
          = Some {| wav_rate := N.to_nat 16000; wav_channels := 2;
                    wav_frames := [[2; 5]; [2; 5]]%Z |}) as E2
    by (vm_compute; reflexivity).
  assert (bucket (fs (generate_datasets timit studio).2) "data/train" 3 !! 0
          = Some {| wav_rate := N.to_nat 16000; wav_channels := 3;
                    wav_frames := [[8; 2; 41]; [8; 2; 41]]%Z |}) as E3
    by (vm_compute; reflexivity).
  assert (0 < length (recordings (fs studio) (train_src_dir timit)) / max_speakers timit)
    as Hn by (vm_compute; lia).
  pose proof (H 2 0 ltac:(cbn; lia) Hn) as H2.
  pose proof (H 3 0 ltac:(cbn; lia) Hn) as H3.
  cbn [train_dest_dir timit new_DataLoader] in H2, H3.
  rewrite E2 in H2. rewrite E3 in H3. clear E2 E3 H Hn.
  injection H2 as H2. injection H3 as H3.
  destruct p as [|x [|y rest]].
  - apply (f_equal wav_channels) in H2. vm_compute in H2. discriminate H2.
  - apply (f_equal wav_channels) in H2.
    rewrite mixture_channels in H2 by done. cbn in H2. discriminate H2.
  - apply (f_equal (channel 0)) in H2. apply (f_equal (channel 0)) in H3.
    rewrite (mixture_channel _ _ 0 x) in H2 by done.
    rewrite (mixture_channel _ _ 0 x) in H3 by done.
    destruct x as [|v x']; cbn in H2, H3.
    + match type of H2 with _ = replicate ?n _ => destruct n end;
        cbn in H2; discriminate H2.
    + injection H2 as <- _. injection H3 as Hv _. discriminate Hv.
Qed.

(** * Loading *)

Lemma pad_and_cut_returns (self : DataLoader) (x : list Z) :
  pad_and_cut self x = Returns (fit (pad_to self) x).
Proof.
  unfold pad_and_cut, np_pad, fit.
  destruct (Z.ltb_spec (Z.max (Z.of_nat (pad_to self) - Z.of_nat (length x)) 0) 0); [lia|].
  f_equal. destruct (Nat.leb_spec (length x) (pad_to self)).
  - replace (Z.to_nat _) with (pad_to self - length x) by lia.
    apply take_ge. rewrite length_app, length_replicate. lia.
  - replace (Z.to_nat _) with 0 by lia. cbn. by rewrite app_nil_r.
Qed.

Lemma fit_length (n : nat) (x : list Z) : length (fit n x) = n.
Proof.
  unfold fit. destruct (Nat.leb_spec (length x) n).
  - rewrite length_app, length_replicate. lia.
  - rewrite length_take. lia.
Qed.

Lemma read_mono (f : WavFile) (x : list Z) :
  np_sum_axis1 (wavfile_read f).2 = Returns x ↔ 1 < wav_channels f ∧ x = mono f.
Proof.
  unfold wavfile_read, np_sum_axis1, mono. cbn [snd].
  destruct (Nat.ltb_spec 1 (wav_channels f)); cbn [rows].
  - split; [intros [= <-]; by split|intros [_ ->]; done].
  - split; [done|]. intros [? _]. lia.
Qed.

Lemma read_all_mono (files : list WavFile) (xs : list (list Z)) :
  map_outcome (λ wav, np_sum_axis1 (wavfile_read wav).2) files = Returns xs →
  xs = map mono files.
Proof.
  intros H%map_outcome_inv. induction H as [|f x files xs Hfx _ IH]; [done|].
  apply read_mono in Hfx as [_ ->]. cbn. by rewrite IH.
Qed.

Lemma read_all_mono_returns (files : list WavFile) :
  Forall (λ f, 1 < wav_channels f) files →
  map_outcome (λ wav, np_sum_axis1 (wavfile_read wav).2) files = Returns (map mono files).
Proof.
  intros H. apply map_outcome_returns. intros f Hf.
  apply read_mono. split; [|done]. by eapply Forall_forall in H.
Qed.

Section Loading.
Variable self : DataLoader.

Let read := λ wav : WavFile, np_sum_axis1 (wavfile_read wav).2.

Lemma load_bucket_run (acc : list (list Z) * list nat * list (list Z) * list nat)
    (k : nat) (w : World) :
  load_bucket self acc k w
  = (match map_outcome read (bucket_files (fs w) (train_dest_dir self) k) with
     | Raises e => Raises e
     | Returns cx =>
         match map_outcome read (bucket_files (fs w) (test_dest_dir self) k) with
         | Raises e => Raises e
         | Returns cs =>
             Returns (acc.1.1.1 ++ cx, acc.1.1.2 ++ replicate (length cx) k,
                      acc.1.2 ++ cs, acc.2 ++ replicate (length cs) k)
         end
     end, w).
Proof.
  destruct acc as [[[tx ty] sx] sy]. unfold load_bucket.
  rewrite run_bind. cbn [glob_wav]. rewrite run_bind. cbn [glob_wav].
  rewrite run_bind. unfold lift. fold read.
  destruct (map_outcome read (bucket_files (fs w) (train_dest_dir self) k)); [|done].
  rewrite run_bind.
  destruct (map_outcome read (bucket_files (fs w) (test_dest_dir self) k)); done.
Qed.

(** The loop over the buckets reads and leaves the world as it is. *)
Lemma load_buckets_world (ks : list nat) :
  ∀ acc w, (foldM (load_bucket self) acc ks w).2 = w.
Proof.
  induction ks as [|k ks IH]; intros acc w; [done|].
  cbn [foldM]. rewrite run_bind, load_bucket_run.
  destruct (map_outcome read (bucket_files (fs w) (train_dest_dir self) k)); [|done].
  destruct (map_outcome read (bucket_files (fs w) (test_dest_dir self) k)); [|done].
  apply IH.
Qed.

(** Its result depends on the files of the buckets it visits only. *)
Lemma load_buckets_agree (ks : list nat) :
  ∀ acc w1 w2,
    (∀ k, k ∈ ks →
       bucket_files (fs w1) (train_dest_dir self) k
       = bucket_files (fs w2) (train_dest_dir self) k
       ∧ bucket_files (fs w1) (test_dest_dir self) k
         = bucket_files (fs w2) (test_dest_dir self) k) →
    (foldM (load_bucket self) acc ks w1).1 = (foldM (load_bucket self) acc ks w2).1.
Proof.
  induction ks as [|k ks IH]; intros acc w1 w2 Hks; [done|].
  cbn [foldM]. rewrite (run_bind _ _ w1), (run_bind _ _ w2), !load_bucket_run.
  destruct (Hks k) as [-> ->]; [left|].
  destruct (map_outcome read (bucket_files (fs w2) (train_dest_dir self) k)); [|done].
  destruct (map_outcome read (bucket_files (fs w2) (test_dest_dir self) k)); [|done].
  apply IH. intros k' Hk'. apply Hks. by right.
Qed.

Lemma load_buckets_inv (ks : list nat) :
  ∀ acc w r w',
    foldM (load_bucket self) acc ks w = (Returns r, w') →
    r = (acc.1.1.1 ++ flat_map (λ k, map mono (bucket_files (fs w) (train_dest_dir self) k)) ks,
         acc.1.1.2 ++ flat_map (λ k, replicate (length (bucket_files (fs w) (train_dest_dir self) k)) k) ks,
         acc.1.2 ++ flat_map (λ k, map mono (bucket_files (fs w) (test_dest_dir self) k)) ks,
         acc.2 ++ flat_map (λ k, replicate (length (bucket_files (fs w) (test_dest_dir self) k)) k) ks).
Proof.
  induction ks as [|k ks IH]; intros acc w r w' H.
  - cbn in H. injection H as <- _. destruct acc as [[[tx ty] sx] sy].
    cbn. by rewrite !app_nil_r.
  - cbn [foldM] in H. rewrite run_bind, load_bucket_run in H.
    destruct (map_outcome read (bucket_files (fs w) (train_dest_dir self) k))
      as [cx|] eqn:Hcx; [|done].
    destruct (map_outcome read (bucket_files (fs w) (test_dest_dir self) k))
      as [cs|] eqn:Hcs; [|done].
    apply read_all_mono in Hcx, Hcs. subst cx cs.
    apply IH in H. rewrite H. cbn [fst snd flat_map].
    by rewrite !length_map, <- !(assoc_L (++)).
Qed.

Lemma np_array_len (xs : list (list Z)) : np_len (np_array xs) = length xs.
Proof. by destruct xs. Qed.

Lemma nth_zip {A B : Type} (l : list A) (k : list B) (i : nat) (da : A) (db : B) :
  length l = length k → nth i (zip l k) (da, db) = (nth i l da, nth i k db).
Proof.
  revert k i. induction l as [|a l IH]; intros [|b k] [|i] [=]; cbn; auto.
Qed.

Lemma index_zip {A B : Type} (l : list A) (k : list B) (idx : list nat) (da : A) (db : B) :
  length l = length k →
  zip (map (λ i, nth i l da) idx) (map (λ i, nth i k db) idx)
  = map (λ i, nth i (zip l k) (da, db)) idx.
Proof.
  intros Hlen. induction idx as [|i idx IH]; [done|].
  cbn. by rewrite IH, nth_zip.
Qed.

Lemma zip_collected (n : nat) (F : nat → list WavFile) (ks : list nat) :
  zip (map (fit n) (flat_map (λ k, map mono (F k)) ks))
      (map Z.of_nat (flat_map (λ k, replicate (length (F k)) k) ks))
  = flat_map (λ k, map (λ f, (fit n (mono f), Z.of_nat k)) (F k)) ks.
Proof.
  induction ks as [|k ks IH]; [done|].
  cbn [flat_map]. rewrite !map_app.
  rewrite zip_with_app by (by rewrite !length_map, length_replicate).
  rewrite IH. f_equal. fmapify.
  rewrite fmap_replicate, zip_with_replicate_r_eq by (by rewrite !length_fmap).
  by rewrite <- !list_fmap_compose.
Qed.

Lemma collected_cols (n : nat) (F : nat → list WavFile) (ks : list nat) :
  let X := flat_map (λ k, map (λ f, (fit n (mono f), Z.of_nat k)) (F k)) ks in
  map (fit n) (flat_map (λ k, map mono (F k)) ks) = X.*1
  ∧ map Z.of_nat (flat_map (λ k, replicate (length (F k)) k) ks) = X.*2
  ∧ length (flat_map (λ k, map mono (F k)) ks) = length X.
Proof.
  assert (length (flat_map (λ k, map mono (F k)) ks)
          = length (flat_map (λ k, replicate (length (F k)) k) ks)) as Hlen.
  { induction ks as [|k ks IH]; [done|].
    cbn [flat_map]. by rewrite !length_app, IH, length_map, length_replicate. }
  cbn zeta. rewrite <- zip_collected. split; [|split].
  - symmetry. apply fst_zip. by rewrite !length_map, Hlen.
  - symmetry. apply snd_zip. by rewrite !length_map, Hlen.
  - rewrite length_zip_with, !length_map, Hlen. lia.
Qed.

Lemma collected_lengths (F : nat → list WavFile) (ks : list nat) :
  length (flat_map (λ k, map mono (F k)) ks)
  = length (flat_map (λ k, replicate (length (F k)) k) ks).
Proof.
  induction ks as [|k ks IH]; [done|].
  cbn [flat_map]. by rewrite !length_app, IH, length_map, length_replicate.
Qed.

Lemma samples_of_take (xs : list (list Z)) (idx : list nat) :
  idx ≡ₚ seq 0 (length xs) →
  samples_of (np_take (np_array xs) idx) = map (λ i, nth i xs []) idx.
Proof.
  intros Hidx. destruct xs as [|x xs]; [|done].
  apply Permutation_nil_r in Hidx. by subst idx.
Qed.

(** A pass of the loader, given what the loop over the buckets
    collected. *)
Lemma load_datasets_run (w : World) (tx ty sx sy : _) :
  let ks := py_range (min_speakers self) (max_speakers self + 1) in
  (foldM (load_bucket self) ([], [], [], []) ks
     (set_log (log w ++ ["Loading data"]) w)).1 = Returns (tx, ty, sx, sy) →
  length tx = length ty → length sx = length sy →
  let r1 := random_shuffle (seq 0 (length tx)) (np_random w) in
  let r2 := random_shuffle (seq 0 (length sx)) r1.2 in
  (load_datasets self w).1
  = Returns (np_take (np_array (map (fit (pad_to self)) tx)) r1.1,
             np_take (Arr1 (map Z.of_nat ty)) r1.1,
             np_take (np_array (map (fit (pad_to self)) sx)) r2.1,
             np_take (Arr1 (map Z.of_nat sy)) r2.1).
Proof.
  intros ks Hfold Htx Hsx r1 r2.
  unfold load_datasets. rewrite run_bind. cbn [write_log]. rewrite run_bind.
  fold ks. pose proof (load_buckets_world ks ([], [], [], [])
                         (set_log (log w ++ ["Loading data"]) w)) as Hw.
  destruct (foldM (load_bucket self) ([], [], [], []) ks
              (set_log (log w ++ ["Loading data"]) w)) as [o w0].
  cbn [fst snd] in Hfold, Hw. subst o w0.
  rewrite run_bind. unfold lift at 1.
  rewrite (map_outcome_returns _ (fit (pad_to self)))
    by (intros; apply pad_and_cut_returns).
  rewrite run_bind. unfold lift at 1.
  rewrite (map_outcome_returns _ (fit (pad_to self)))
    by (intros; apply pad_and_cut_returns).
  rewrite run_bind. unfold sklearn_shuffle at 1.
  cbn [np_len]. rewrite np_array_len, !length_map.
  rewrite Htx, Nat.eqb_refl. cbn [negb set_log np_random]. rewrite <- Htx. fold r1.
  destruct r1 as [idx1 g1] eqn:Hr1.
  rewrite run_bind. unfold sklearn_shuffle at 1.
  cbn [np_len]. rewrite np_array_len, !length_map.
  rewrite Hsx, Nat.eqb_refl. cbn [negb set_np_random np_random]. rewrite <- Hsx.
  cbn [snd] in r2. fold r2.
  destruct r2 as [idx2 g2] eqn:Hr2.
  rewrite run_bind. cbn [write_log]. rewrite run_bind.
  destruct (save_to_file self); reflexivity.
Qed.

Lemma load_datasets_raises (w : World) (e : PyError) :
  (foldM (load_bucket self) ([], [], [], [])
     (py_range (min_speakers self) (max_speakers self + 1))
     (set_log (log w ++ ["Loading data"]) w)).1 = Raises e →
  (load_datasets self w).1 = Raises e.
Proof.
  intros Hfold. unfold load_datasets. rewrite run_bind. cbn [write_log].
  rewrite run_bind.
  destruct (foldM (load_bucket self) ([], [], [], []) _ _) as [o w0].
  cbn [fst] in Hfold. by subst o.
Qed.

(** What a successful pass returns: the fitted waveforms of the files
    of the buckets with their speaker counts, rows and labels permuted
    alike. *)
Lemma load_datasets_inv (w : World) (tx ty sx sy : ndarray) :
  (load_datasets self w).1 = Returns (tx, ty, sx, sy) →
  ∃ idx1 idx2 : list nat,
    let X1 := bucket_samples self (fs w) (train_dest_dir self) in
    let X2 := bucket_samples self (fs w) (test_dest_dir self) in
    idx1 ≡ₚ seq 0 (length X1) ∧ idx2 ≡ₚ seq 0 (length X2)
    ∧ samples_of tx = map (λ i, nth i X1.*1 []) idx1
    ∧ labels_of ty = map (λ i, nth i X1.*2 0%Z) idx1
    ∧ samples_of sx = map (λ i, nth i X2.*1 []) idx2
    ∧ labels_of sy = map (λ i, nth i X2.*2 0%Z) idx2.
Proof.
  intros H.
  set (ks := py_range (min_speakers self) (max_speakers self + 1)).
  set (w0 := set_log (log w ++ ["Loading data"]) w).
  destruct (foldM (load_bucket self) ([], [], [], []) ks w0) as [o w1] eqn:Hfold.
  destruct o as [r|e]; last first.
  { rewrite (load_datasets_raises w e) in H; [done|]. fold ks w0. by rewrite Hfold. }
  apply load_buckets_inv in Hfold as Hr. cbn [fst snd app] in Hr.
  change (fs w0) with (fs w) in Hr.
  pose (F1 := bucket_files (fs w) (train_dest_dir self)).
  pose (F2 := bucket_files (fs w) (test_dest_dir self)).
  pose proof (load_datasets_run w _ _ _ _
                ltac:(fold ks w0; rewrite Hfold, Hr; reflexivity)
                (collected_lengths F1 ks) (collected_lengths F2 ks)) as Hrun.
  cbn zeta in Hrun. rewrite Hrun in H. clear Hrun.
  destruct (collected_cols (pad_to self) F1 ks) as (Hx1 & Hy1 & Hl1).
  destruct (collected_cols (pad_to self) F2 ks) as (Hx2 & Hy2 & Hl2).
  unfold F1, F2 in *. rewrite Hx1, Hy1, Hx2, Hy2, Hl1, Hl2 in H.
  unfold bucket_samples. fold ks.
  set (X1 := flat_map (λ k, map (λ f, (fit (pad_to self) (mono f), Z.of_nat k))
                                (bucket_files (fs w) (train_dest_dir self) k)) ks) in *.
  set (X2 := flat_map (λ k, map (λ f, (fit (pad_to self) (mono f), Z.of_nat k))
                                (bucket_files (fs w) (test_dest_dir self) k)) ks) in *.
  pose proof (random_shuffle_Permutation (seq 0 (length X1)) (np_random w)) as Hp1.
  destruct (random_shuffle (seq 0 (length X1)) (np_random w)) as [idx1 g1].
  pose proof (random_shuffle_Permutation (seq 0 (length X2)) g1) as Hp2.
  cbn [fst snd] in H, Hp1, Hp2.
  destruct (random_shuffle (seq 0 (length X2)) g1) as [idx2 g2].
  cbn [fst snd] in H, Hp2. injection H as <- <- <- <-.
  exists idx1, idx2. cbn zeta.
  split; [done|]. split; [done|].
  split; [|split; [done|split; [|done]]].
  - apply samples_of_take. by rewrite length_fmap.
  - apply samples_of_take. by rewrite length_fmap.
Qed.
End Loading.

Lemma bucket_samples_elem (self : DataLoader) (f : FileSystem) (dest : string)
    (x : list Z) (y : Z) :
  (x, y) ∈ bucket_samples self f dest ↔
  ∃ k file, min_speakers self ≤ k ≤ max_speakers self
            ∧ file ∈ bucket_files f dest k
            ∧ y = Z.of_nat k
            ∧ x = fit (pad_to self) (mono file).
Proof.
  unfold bucket_samples. rewrite list_elem_of_In, in_flat_map. split.
  - intros (k & Hk & Hin). apply list_elem_of_In in Hk, Hin.
    apply elem_of_py_range in Hk. fmapify.
    apply list_elem_of_fmap in Hin as (file & [= -> ->] & Hfile).
    exists k, file. split; [done|]. by split.
  - intros (k & file & Hk & Hfile & -> & ->). exists k. split.
    + apply list_elem_of_In. by apply elem_of_py_range.
    + apply list_elem_of_In. fmapify. apply list_elem_of_fmap. eauto.
Qed.

(** C6: a sample of a successful pass of the loader has exactly [pad_to]
    values; together with its label it is the mono waveform of a file of
    some bucket [k], with zeros appended if it was shorter than [pad_to]
    and cut if it was longer, and its label is [k].  Every file of every
    bucket is loaded once. *)
Theorem loaded_samples (self : DataLoader) (w : World) (tx ty sx sy : ndarray) :
  (load_datasets self w).1 = Returns (tx, ty, sx, sy) →
  (∀ x, x ∈ samples_of tx ++ samples_of sx → length x = pad_to self)
  ∧ length (samples_of tx) = length (labels_of ty)
  ∧ length (samples_of sx) = length (labels_of sy)
  ∧ (∀ dest xs ys,
       (dest, xs, ys) ∈ [(train_dest_dir self, samples_of tx, labels_of ty);
                         (test_dest_dir self, samples_of sx, labels_of sy)] →
       zip xs ys ≡ₚ bucket_samples self (fs w) dest
       ∧ ∀ x y, (x, y) ∈ zip xs ys →
           ∃ k file, min_speakers self ≤ k ≤ max_speakers self
                     ∧ file ∈ bucket_files (fs w) dest k
                     ∧ y = Z.of_nat k
                     ∧ x = (if length (mono file) <=? pad_to self
                            then mono file ++ replicate (pad_to self - length (mono file)) 0%Z
                            else take (pad_to self) (mono file))).
Proof.
  intros H. apply load_datasets_inv in H
    as (idx1 & idx2 & Hp1 & Hp2 & Htx & Hty & Hsx & Hsy).
  cbn zeta in *.
  set (X1 := bucket_samples self (fs w) (train_dest_dir self)) in *.
  set (X2 := bucket_samples self (fs w) (test_dest_dir self)) in *.
  assert (∀ (X : list (list Z * Z)) idx,
            idx ≡ₚ seq 0 (length X) →
            zip (map (λ i, nth i X.*1 []) idx) (map (λ i, nth i X.*2 0%Z) idx) ≡ₚ X)
    as Hzip.
  { intros X idx Hidx. rewrite index_zip by (by rewrite !length_fmap).
    rewrite zip_fst_snd. by apply index_Permutation. }
  assert (zip (samples_of tx) (labels_of ty) ≡ₚ X1) as Hz1 by (rewrite Htx, Hty; auto).
  assert (zip (samples_of sx) (labels_of sy) ≡ₚ X2) as Hz2 by (rewrite Hsx, Hsy; auto).
  assert (length (samples_of tx) = length (labels_of ty)) as Hl1
    by (by rewrite Htx, Hty, !length_map).
  assert (length (samples_of sx) = length (labels_of sy)) as Hl2
    by (by rewrite Hsx, Hsy, !length_map).
  assert (∀ dest xs ys, zip xs ys ≡ₚ bucket_samples self (fs w) dest →
            ∀ x y, (x, y) ∈ zip xs ys →
              ∃ k file, min_speakers self ≤ k ≤ max_speakers self
                        ∧ file ∈ bucket_files (fs w) dest k
                        ∧ y = Z.of_nat k
                        ∧ x = fit (pad_to self) (mono file)) as Hmem.
  { intros dest xs ys Hz x y Hxy. rewrite Hz in Hxy.
    by apply bucket_samples_elem in Hxy. }
  split; [|split; [done|split; [done|]]].
  - assert (∀ dest xs ys, length xs = length ys →
              zip xs ys ≡ₚ bucket_samples self (fs w) dest →
              ∀ x, x ∈ xs → length x = pad_to self) as Hfit.
    { intros dest xs ys Hlen Hz x Hx.
      rewrite <- (fst_zip xs ys) in Hx by lia.
      apply list_elem_of_fmap in Hx as ([x' y] & -> & Hxy).
      destruct (Hmem dest xs ys Hz x' y Hxy) as (k & file & _ & _ & _ & ->).
      apply fit_length. }
    intros x [Hx|Hx]%elem_of_app; eauto.
  - intros dest xs ys Hd.
    assert (zip xs ys ≡ₚ bucket_samples self (fs w) dest) as Hz.
    { apply elem_of_cons in Hd as [[= -> -> ->]|Hd]; [done|].
      by apply list_elem_of_singleton in Hd as [= -> -> ->]. }
    split; [done|]. apply Hmem, Hz.
Qed.

Lemma loaded_samples_witness :
  ∃ tx ty sx sy,
    (load_datasets small booth).1 = Returns (tx, ty, sx, sy)
    ∧ (∀ x, x ∈ samples_of tx ++ samples_of sx → length x = 4)
    ∧ length (samples_of tx) = 3.
Proof.
  do 4 eexists.
  assert ((load_datasets small booth).1 = Returns _) as H by (vm_compute; reflexivity).
  split; [exact H|].
  destruct (loaded_samples small booth _ _ _ _ H) as (Hlen & _).
  split; [exact Hlen|reflexivity].
Defined.

(** The loader returns whenever every file of the buckets has more than
    one channel, as every generated file has. *)
Lemma load_datasets_returns (self : DataLoader) (w : World) :
  (∀ k file, min_speakers self ≤ k ≤ max_speakers self →
     file ∈ bucket_files (fs w) (train_dest_dir self) k
            ++ bucket_files (fs w) (test_dest_dir self) k →
     1 < wav_channels file) →
  ∃ r, (load_datasets self w).1 = Returns r.
Proof.
  intros Hch.
  set (ks := py_range (min_speakers self) (max_speakers self + 1)).
  set (w0 := set_log (log w ++ ["Loading data"]) w).
  assert (∀ acc, ∃ r, (foldM (load_bucket self) acc ks w0).1 = Returns r) as Hfold.
  { assert (∀ k, k ∈ ks → min_speakers self ≤ k ≤ max_speakers self) as Hks
      by (intros k; apply elem_of_py_range).
    clearbody ks. induction ks as [|k ks IH]; intros acc; [by eexists|].
    cbn [foldM]. rewrite run_bind, load_bucket_run.
    change (fs w0) with (fs w).
    rewrite !read_all_mono_returns.
    - apply IH. intros k' Hk'. apply Hks. by right.
    - apply Forall_forall. intros file Hfile. apply (Hch k); [apply Hks; left|].
      apply elem_of_app. by right.
    - apply Forall_forall. intros file Hfile. apply (Hch k); [apply Hks; left|].
      apply elem_of_app. by left. }
  destruct (Hfold ([], [], [], [])) as ([[[tx ty] sx] sy] & Hr).
  eexists. apply (load_datasets_run self w tx ty sx sy Hr).
  - destruct (foldM (load_bucket self) ([], [], [], []) ks w0) as [o w1] eqn:E.
    cbn [fst] in Hr. subst o. apply load_buckets_inv in E. injection E as -> -> _ _.
    apply collected_lengths.
  - destruct (foldM (load_bucket self) ([], [], [], []) ks w0) as [o w1] eqn:E.
    cbn [fst] in Hr. subst o. apply load_buckets_inv in E. injection E as _ _ -> ->.
    apply collected_lengths.
Qed.

(** C8: the arrays a pass of the loader returns are determined by the
    files of the bucket directories it visits and the state of numpy's
    generator when it starts: two passes that start from the same
    generator state over the same layout return the same arrays in the
    same order, whatever else differs between the two worlds. *)
Theorem shuffle_deterministic (self : DataLoader) (w1 w2 : World) :
  np_random w1 = np_random w2 →
  (∀ k, min_speakers self ≤ k ≤ max_speakers self →
     bucket (fs w1) (train_dest_dir self) k = bucket (fs w2) (train_dest_dir self) k
     ∧ bucket (fs w1) (test_dest_dir self) k = bucket (fs w2) (test_dest_dir self) k) →
  (load_datasets self w1).1 = (load_datasets self w2).1.
Proof.
  intros Hseed Hlayout.
  set (ks := py_range (min_speakers self) (max_speakers self + 1)).
  pose (w01 := set_log (log w1 ++ ["Loading data"]) w1).
  pose (w02 := set_log (log w2 ++ ["Loading data"]) w2).
  assert ((foldM (load_bucket self) ([], [], [], []) ks w01).1
          = (foldM (load_bucket self) ([], [], [], []) ks w02).1) as Hsame.
  { apply load_buckets_agree. intros k Hk%elem_of_py_range.
    destruct (Hlayout k Hk) as [Htr Hte].
    unfold bucket_files. change (fs w01) with (fs w1). change (fs w02) with (fs w2).
    by rewrite Htr, Hte. }
  destruct (foldM (load_bucket self) ([], [], [], []) ks w01) as [o w1'] eqn:E1.
  cbn [fst] in Hsame.
  destruct o as [[[[tx ty] sx] sy]|e].
  - apply load_buckets_inv in E1 as Hr. injection Hr as -> -> -> ->.
    assert ((foldM (load_bucket self) ([], [], [], []) ks w01).1 = Returns _) as H1
      by (by rewrite E1).
    symmetry in Hsame.
    rewrite (load_datasets_run self w1 _ _ _ _ H1)
      by (cbn [app]; apply collected_lengths).
    rewrite (load_datasets_run self w2 _ _ _ _ Hsame)
      by (cbn [app]; apply collected_lengths).
    by rewrite Hseed.
  - rewrite (load_datasets_raises self w1 e) by (fold ks w01; by rewrite E1).
    by rewrite (load_datasets_raises self w2 e).
Qed.

Lemma shuffle_deterministic_witness :
  np_random booth = np_random booth'
  ∧ (∀ k, min_speakers small ≤ k ≤ max_speakers small →
       bucket (fs booth) (train_dest_dir small) k = bucket (fs booth') (train_dest_dir small) k
       ∧ bucket (fs booth) (test_dest_dir small) k = bucket (fs booth') (test_dest_dir small) k)
  ∧ (load_datasets small booth).1 = (load_datasets small booth').1.
Proof.
  assert (np_random booth = np_random booth') as Hseed by reflexivity.
  assert (∀ k, min_speakers small ≤ k ≤ max_speakers small →
            bucket (fs booth) (train_dest_dir small) k
            = bucket (fs booth') (train_dest_dir small) k
            ∧ bucket (fs booth) (test_dest_dir small) k
              = bucket (fs booth') (test_dest_dir small) k) as Hlayout.
  { intros k [Hlo Hhi]. cbn in Hlo, Hhi.
    assert (k = 2 ∨ k = 3) as [-> | ->] by lia; split; vm_compute; reflexivity. }
  split; [exact Hseed|]. split; [exact Hlayout|].
  exact (shuffle_deterministic small booth booth' Hseed Hlayout).
Defined.

(** * Snapshots *)

Lemma load_set_present (name : string) (a : ndarray) (w : World) :
  npy_files (fs w) !! (name +:+ ".npy") = Some a →
  load_set name w = (Returns (), set_attrs (<[name := a]> (attrs w)) w).
Proof.
  intros H. unfold load_set. cbv zeta. rewrite run_bind. cbn [npy_exists]. rewrite H.
  rewrite bool_decide_true by eauto.
  cbn [negb]. rewrite run_bind. unfold np_load. by rewrite H.
Qed.

Lemma load_set_absent (name : string) (w : World) :
  npy_files (fs w) !! (name +:+ ".npy") = None →
  load_set name w = (Raises (FileNotFoundError (name +:+ ".npy")), w).
Proof.
  intros H. unfold load_set. cbv zeta. rewrite run_bind. cbn [npy_exists]. rewrite H.
  by rewrite bool_decide_false by (by intros [? ?]).
Qed.

Ltac snapshot_start :=
  unfold load_from_file_; rewrite run_bind; cbn [write_log];
  unfold for_each, sets; cbn [foldM]; rewrite run_bind.

Ltac snapshot_present name a H :=
  rewrite (run_bind (load_set name)), (load_set_present name a) by exact H.

Ltac snapshot_absent name H :=
  rewrite (run_bind (load_set name)), (load_set_absent name) by exact H.

Ltac snapshot_getattrs :=
  repeat first
    [ rewrite run_bind
    | progress unfold getattr
    | progress cbn [ret attrs set_attrs set_log app]
    | rewrite lookup_insert_eq
    | rewrite lookup_insert_ne by discriminate ].

(** The snapshot load, by cases on the four files. *)
Lemma load_from_file_run (w : World) :
  (load_from_file_ w).1 = snapshot_outcome (npy_files (fs w))
  ∧ fs (load_from_file_ w).2 = fs w
  ∧ (∀ e, (load_from_file_ w).1 = Raises e →
       log (load_from_file_ w).2 = log w ++ ["Loading data from filesystem"])
  ∧ (∀ v, (load_from_file_ w).1 = Returns v →
       log (load_from_file_ w).2 = log w ++ ["Loading data from filesystem"; "Data loaded"]).
Proof.
  unfold snapshot_outcome.
  destruct (npy_files (fs w) !! "train_x.npy") as [a|] eqn:Ha; last first.
  { assert (load_from_file_ w
            = (Raises (FileNotFoundError "train_x.npy"),
               set_log (log w ++ ["Loading data from filesystem"]) w)) as E.
    { snapshot_start. by snapshot_absent "train_x" Ha. }
    rewrite E. by repeat split. }
  destruct (npy_files (fs w) !! "train_y.npy") as [b|] eqn:Hb; last first.
  { assert (∃ w', load_from_file_ w = (Raises (FileNotFoundError "train_y.npy"), w')
                  ∧ fs w' = fs w
                  ∧ log w' = log w ++ ["Loading data from filesystem"])
      as (w' & E & ? & ?).
    { eexists. split.
      - snapshot_start. snapshot_present "train_x" a Ha.
        snapshot_absent "train_y" Hb. reflexivity.
      - by split. }
    rewrite E. by repeat split. }
  destruct (npy_files (fs w) !! "test_x.npy") as [c|] eqn:Hc; last first.
  { assert (∃ w', load_from_file_ w = (Raises (FileNotFoundError "test_x.npy"), w')
                  ∧ fs w' = fs w
                  ∧ log w' = log w ++ ["Loading data from filesystem"])
      as (w' & E & ? & ?).
    { eexists. split.
      - snapshot_start. snapshot_present "train_x" a Ha.
        snapshot_present "train_y" b Hb. snapshot_absent "test_x" Hc. reflexivity.
      - by split. }
    rewrite E. by repeat split. }
  destruct (npy_files (fs w) !! "test_y.npy") as [d|] eqn:Hd; last first.
  { assert (∃ w', load_from_file_ w = (Raises (FileNotFoundError "test_y.npy"), w')
                  ∧ fs w' = fs w
                  ∧ log w' = log w ++ ["Loading data from filesystem"])
      as (w' & E & ? & ?).
    { eexists. split.
      - snapshot_start. snapshot_present "train_x" a Ha.
        snapshot_present "train_y" b Hb. snapshot_present "test_x" c Hc.
        snapshot_absent "test_y" Hd. reflexivity.
      - by split. }
    rewrite E. by repeat split. }
  assert (∃ w', load_from_file_ w
                = (Returns (PyMapTuple [PyArray a; PyArray b; PyArray c; PyArray d]), w')
                ∧ fs w' = fs w
                ∧ log w' = log w ++ ["Loading data from filesystem"; "Data loaded"])
    as (w' & E & ? & ?).
  { eexists. split.
    - snapshot_start. snapshot_present "train_x" a Ha. snapshot_present "train_y" b Hb.
      snapshot_present "test_x" c Hc. snapshot_present "test_y" d Hd.
      cbn [ret]. rewrite run_bind. cbn [write_log].
      snapshot_getattrs. reflexivity.
    - split; [done|]. cbn [log set_log set_attrs]. by rewrite <- (assoc_L (++)). }
  rewrite E. by repeat split.
Qed.

(** C7: the snapshot load either finds all four files and returns their
    four arrays, or raises [FileNotFoundError] with the name of the first
    file that is absent; in that case it leaves the file system as it was
    and has logged nothing but its own start, and [load_data] without
    forced regeneration is this very computation. *)
Theorem snapshot_load_or_error (self : DataLoader) (w : World) :
  (∃ a b c d,
      npy_files (fs w) !! "train_x.npy" = Some a
      ∧ npy_files (fs w) !! "train_y.npy" = Some b
      ∧ npy_files (fs w) !! "test_x.npy" = Some c
      ∧ npy_files (fs w) !! "test_y.npy" = Some d
      ∧ (load_from_file_ w).1
        = Returns (PyMapTuple [PyArray a; PyArray b; PyArray c; PyArray d]))
  ∨ (∃ missing,
        missing ∈ sets
        ∧ npy_files (fs w) !! (missing +:+ ".npy") = None
        ∧ (load_from_file_ w).1 = Raises (FileNotFoundError (missing +:+ ".npy"))
        ∧ fs (load_from_file_ w).2 = fs w
        ∧ log (load_from_file_ w).2 = log w ++ ["Loading data from filesystem"]
        ∧ (load_from_file self = true →
           load_data self false w = load_from_file_ w)).
Proof.
  destruct (load_from_file_run w) as (Hout & Hfs & Hlog & _).
  assert (load_from_file self = true → load_data self false w = load_from_file_ w)
    as Hdirect.
  { intros Hflag. unfold load_data. rewrite Hflag. reflexivity. }
  unfold snapshot_outcome in Hout.
  destruct (npy_files (fs w) !! "train_x.npy") as [a|] eqn:Ha; last first.
  { right. exists "train_x". split; [set_solver|]. split; [exact Ha|]. eauto. }
  destruct (npy_files (fs w) !! "train_y.npy") as [b|] eqn:Hb; last first.
  { right. exists "train_y". split; [set_solver|]. split; [exact Hb|]. eauto. }
  destruct (npy_files (fs w) !! "test_x.npy") as [c|] eqn:Hc; last first.
  { right. exists "test_x". split; [set_solver|]. split; [exact Hc|]. eauto. }
  destruct (npy_files (fs w) !! "test_y.npy") as [d|] eqn:Hd; last first.
  { right. exists "test_y". split; [set_solver|]. split; [exact Hd|]. eauto. }
  left. by exists a, b, c, d.
Qed.

Lemma snapshot_load_or_error_witness :
  ∃ missing,
    missing ∈ sets
    ∧ (load_from_file_ half_cached).1 = Raises (FileNotFoundError (missing +:+ ".npy"))
    ∧ fs (load_from_file_ half_cached).2 = fs half_cached.
Proof.
  destruct (snapshot_load_or_error small_cached half_cached)
    as [(a & b & c & d & _ & _ & Hc & _)|(missing & Hin & _ & Hraise & Hfs & _)].
  - vm_compute in Hc. discriminate Hc.
  - exists missing. split; [exact Hin|]. split; [exact Hraise|exact Hfs].
Defined.

(** * The entry point *)

Lemma generate_datasets_creates_dirs (self : DataLoader) (w : World) :
  0 < min_speakers self ≤ max_speakers self →
  ∃ w', generate_datasets self w = (Returns (), w')
        ∧ npy_files (fs w') = npy_files (fs w)
        ∧ train_dest_dir self ∈ directories (fs w')
        ∧ test_dest_dir self ∈ directories (fs w').
Proof.
  intros [Hmin Hle].
  destruct (generate_datasets_run self w Hmin ltac:(lia))
    as (w' & Hrun & _ & Hnpy & _ & _ & _ & _ & Hdir & _).
  exists w'. split; [done|]. split; [done|].
  assert (py_range (min_speakers self) (max_speakers self + 1) ≠ []) as Hks.
  { intros E. apply (f_equal length) in E. rewrite py_range_length in E.
    cbn in E. lia. }
  destruct (py_range (min_speakers self) (max_speakers self + 1)); [done|].
  rewrite Hdir. split.
  - apply elem_of_union. right. apply elem_of_union. left. by apply elem_of_singleton.
  - apply elem_of_union. left. by apply elem_of_singleton.
Qed.

(** C2, as the code has it: forced regeneration comes first and does not
    decide the strategy.  With the snapshot flag set the result is that
    of the snapshot load, which is a function of the [.npy] files alone
    and, when regeneration is not forced, leaves the file system as it
    was.  With the flag off the result comes from the loader, after one
    generation when it is forced, and otherwise after a generation
    exactly when one of the two destination directories is absent. *)
Theorem load_data_precedence (self : DataLoader) (w : World) :
  0 < min_speakers self ≤ max_speakers self →
  (load_from_file self = true →
     load_data self false w = load_from_file_ w
     ∧ load_data self true w = (generate_datasets self ≫= λ _, load_from_file_) w
     ∧ (load_data self false w).1 = snapshot_outcome (npy_files (fs w))
     ∧ (load_data self true w).1 = snapshot_outcome (npy_files (fs w))
     ∧ fs (load_data self false w).2 = fs w)
  ∧ (load_from_file self = false →
       load_data self true w = (generate_datasets self ≫= λ _, loader_result self) w
       ∧ load_data self false w
         = (if bool_decide (train_dest_dir self ∈ directories (fs w)
                            ∧ test_dest_dir self ∈ directories (fs w))
            then loader_result self w
            else (generate_datasets self ≫= λ _, loader_result self) w)).
Proof.
  intros Hcfg.
  destruct (generate_datasets_creates_dirs self w Hcfg) as (w1 & Hgen & Hnpy & Htr & Hte).
  split; intros Hflag.
  - assert (load_data self false w = load_from_file_ w) as E0
      by (unfold load_data; rewrite Hflag; reflexivity).
    assert (load_data self true w = (generate_datasets self ≫= λ _, load_from_file_) w) as E1
      by (unfold load_data; rewrite Hflag; reflexivity).
    destruct (load_from_file_run w) as (Hout & Hfs & _).
    destruct (load_from_file_run w1) as (Hout1 & _).
    split; [done|]. split; [done|]. rewrite E0, E1. split; [done|]. split; [|done].
    rewrite run_bind, Hgen. by rewrite Hout1, Hnpy.
  - split.
    + unfold load_data. rewrite Hflag. rewrite !(run_bind (generate_datasets self)), Hgen.
      rewrite run_bind. cbn [dir_exists]. rewrite run_bind. cbn [dir_exists].
      rewrite !bool_decide_true by done. reflexivity.
    + unfold load_data. rewrite Hflag.
      rewrite run_bind. cbn [ret]. rewrite run_bind. cbn [dir_exists].
      rewrite run_bind. cbn [dir_exists].
      destruct (decide (train_dest_dir self ∈ directories (fs w))) as [Hin1|Hout1].
      * destruct (decide (test_dest_dir self ∈ directories (fs w))) as [Hin2|Hout2].
        -- rewrite !bool_decide_true by done. reflexivity.
        -- rewrite (bool_decide_false (test_dest_dir self ∈ _)) by done.
           rewrite (bool_decide_false (_ ∧ _)) by tauto.
           rewrite bool_decide_true by done. reflexivity.
      * rewrite (bool_decide_false (train_dest_dir self ∈ _)) by done.
        rewrite (bool_decide_false (_ ∧ _)) by tauto. reflexivity.
Qed.

Lemma load_data_precedence_witness :
  0 < min_speakers small_cached ≤ max_speakers small_cached
  ∧ load_from_file small_cached = true
  ∧ (load_data small_cached true cached).1 = snapshot_outcome (npy_files (fs cached)).
Proof.
  assert (0 < min_speakers small_cached ≤ max_speakers small_cached) as Hcfg
    by (cbn; lia).
  split; [exact Hcfg|]. split; [reflexivity|].
  destruct (load_data_precedence small_cached cached Hcfg) as [Hsnap _].
  destruct (Hsnap eq_refl) as (_ & _ & _ & H & _). exact H.
Defined.

Lemma loader_result_kind (self : DataLoader) (w : World) (v : PyValue) :
  (loader_result self w).1 = Returns v →
  ∃ a b c d, v = PyTuple [PyArray a; PyArray b; PyArray c; PyArray d].
Proof.
  unfold loader_result. rewrite run_bind.
  destruct (load_datasets self w) as [[[[[a b] c] d]|e] w']; cbn; [|done].
  intros [= <-]. by exists a, b, c, d.
Qed.

Lemma regenerated_loader_result_kind (self : DataLoader) (w : World) (v : PyValue) :
  ((generate_datasets self ≫= λ _, loader_result self) w).1 = Returns v →
  ∃ a b c d, v = PyTuple [PyArray a; PyArray b; PyArray c; PyArray d].
Proof.
  rewrite run_bind. destruct (generate_datasets self w) as [[[]|e] w1]; [|done].
  apply loader_result_kind.
Qed.

(** C2, as stated, fails: with the class attributes as the source sets
    them (the snapshot flag is on) and forced regeneration, the result is
    the snapshot's, not the loader's, and the loader never starts. *)
Lemma forced_regeneration_then_snapshot :
  (load_data timit true archive).1 ≠ (load_data_spec timit true archive).1
  ∧ (load_data timit true archive).1 = snapshot_outcome cache
  ∧ log (load_data timit true archive).2
    = ["Generating data"; "Data generated"; "Loading data from filesystem"; "Data loaded"].
Proof.
  split; [|split]; [|vm_compute; reflexivity..].
  assert (∃ l, (load_data timit true archive).1 = Returns (PyMapTuple l))
    as (l & E) by (eexists; vm_compute; reflexivity).
  rewrite E. intros Hspec. symmetry in Hspec.
  apply regenerated_loader_result_kind in Hspec as (a & b & c & d & Hv).
  discriminate Hv.
Qed.

(** C3 at an input where it fails: with all four [.npy] files present,
    the snapshot path hands back the lazy object [map(tuple, ...)],
    whose items are tuples, where the loader path on the same files
    hands back a tuple of four arrays. *)
Theorem snapshot_returns_map_object :
  ∃ from_snapshot from_loader,
    (load_data small_cached false cached).1 = Returns from_snapshot
    ∧ (load_data small false cached).1 = Returns from_loader
    ∧ (∃ a b c d, from_loader = PyTuple [PyArray a; PyArray b; PyArray c; PyArray d])
    ∧ (∃ a b c d, from_snapshot = PyMapTuple [PyArray a; PyArray b; PyArray c; PyArray d])
    ∧ (∀ items, from_snapshot ≠ PyTuple items)
    ∧ Forall (λ item, ∃ elems, item = PyTuple elems) (py_items from_snapshot)
    ∧ Forall (λ item, ∃ a, item = PyArray a) (py_items from_loader).
Proof.
  do 2 eexists.
  split; [vm_compute; reflexivity|]. split; [vm_compute; reflexivity|].
  split; [by do 4 eexists|]. split; [by do 4 eexists|]. split; [done|].
  split; cbn; repeat constructor; by eexists.
Qed.

(** * Beyond the claims *)

(** ** What a computation leaves alone *)

Section Preservation.
Context (R : relation World) `{!PreOrder R}.

Lemma preserves_unchanged {A : Type} (m : M A) :
  (∀ w, (m w).2 = w) → preserves R m.
Proof. intros H w. by rewrite H. Qed.

Lemma preserves_bind {A B : Type} (m : M A) (k : A → M B) :
  preserves R m → (∀ a, preserves R (k a)) → preserves R (m ≫= k).
Proof.
  intros Hm Hk w. rewrite run_bind. specialize (Hm w).
  destruct (m w) as [[a|e] w1]; [|done].
  etransitivity; [exact Hm|apply Hk].
Qed.

Lemma preserves_foldM {A B : Type} (body : B → A → M B) (l : list A) :
  (∀ a, a ∈ l → ∀ b, preserves R (body b a)) → ∀ b, preserves R (foldM body b l).
Proof.
  induction l as [|a l IH]; intros Hbody b.
  - by apply preserves_unchanged.
  - cbn [foldM]. apply preserves_bind; [apply Hbody; left|].
    intros b'. apply IH. intros a' Ha'. apply Hbody. by right.
Qed.


Lemma preserves_if {A : Type} (b : bool) (m1 m2 : M A) :
  preserves R m1 → preserves R m2 → preserves R (if b then m1 else m2).
Proof. by destruct b. Qed.
End Preservation.

#[local] Instance loader_footprint_preorder : PreOrder loader_footprint.
Proof.
  split.
  - intros w. by repeat split.
  - intros w1 w2 w3 (?&?&?&?&?&H12) (?&?&?&?&?&H23).
    repeat split; try congruence.
    intros name Hname. by rewrite H23, H12.
Qed.

#[local] Instance same_files_preorder : PreOrder same_files.
Proof.
  split.
  - intros w. by repeat split.
  - intros w1 w2 w3 (?&?&?) (?&?&?). repeat split; congruence.
Qed.

#[local] Instance generation_footprint_preorder (self : DataLoader) :
  PreOrder (generation_footprint self).
Proof.
  split.
  - intros w. repeat split; auto.
  - intros w1 w2 w3 (Hs&Hn&Hr&Ha&Hup&Hdn&Hbk&Hkeep) (Hs'&Hn'&Hr'&Ha'&Hup'&Hdn'&Hbk'&Hkeep').
    split; [congruence|]. split; [congruence|]. split; [congruence|].
    split; [congruence|]. split; [auto|]. split; [|split].
    + intros d Hd. destruct (Hdn' d Hd) as [?|[?|Hd2]]; auto.
    + intros d k Hdk. by rewrite Hbk', Hbk.
    + auto.
Qed.

Create HintDb preserve.

Ltac preserve_structure :=
  repeat first
    [ apply preserves_bind; [apply _| |intros ?]
    | apply preserves_if
    | match goal with
      | |- preserves _ (match ?x with _ => _ end) => destruct x
      end ].

(** *** The loader *)

Lemma sklearn_shuffle_world (a b : ndarray) (w : World) :
  ∃ g, (sklearn_shuffle a b w).2 = set_np_random g w.
Proof.
  unfold sklearn_shuffle. destruct (negb _).
  - exists (np_random w). by destruct w.
  - destruct (random_shuffle _ _) as [idx g]. by exists g.
Qed.

Lemma write_log_loader (msg : string) : preserves loader_footprint (write_log msg).
Proof. intros w. by repeat split. Qed.

Lemma sklearn_shuffle_loader (a b : ndarray) :
  preserves loader_footprint (sklearn_shuffle a b).
Proof.
  intros w. destruct (sklearn_shuffle_world a b w) as (g & ->). by repeat split.
Qed.

Lemma np_save_loader (name : string) (a : ndarray) :
  name ∈ snapshot_names → preserves loader_footprint (np_save name a).
Proof.
  intros Hname w. repeat split; try done.
  intros other Hother. cbn. apply lookup_insert_ne. by intros ->.
Qed.

Lemma load_bucket_unchanged (self : DataLoader) acc (k : nat) (w : World) :
  (load_bucket self acc k w).2 = w.
Proof. by rewrite load_bucket_run. Qed.

#[local] Hint Resolve write_log_loader sklearn_shuffle_loader np_save_loader : preserve.

Ltac in_list := repeat first [by left | right].

Ltac preserve_leaf :=
  first
    [ solve [auto with preserve]
    | solve [apply preserves_unchanged; [apply _|done]]
    | solve [apply np_save_loader; unfold snapshot_names; in_list]
    | solve [apply preserves_foldM; [apply _|]; intros ? _ ?;
             apply preserves_unchanged; [apply _|]; apply load_bucket_unchanged] ].

Lemma load_datasets_loader (self : DataLoader) :
  preserves loader_footprint (load_datasets self).
Proof. unfold load_datasets. preserve_structure; preserve_leaf. Qed.

Lemma write_log_same_files (msg : string) : preserves same_files (write_log msg).
Proof. intros w. by repeat split. Qed.

Lemma sklearn_shuffle_same_files (a b : ndarray) :
  preserves same_files (sklearn_shuffle a b).
Proof.
  intros w. destruct (sklearn_shuffle_world a b w) as (g & ->). by repeat split.
Qed.

#[local] Hint Resolve write_log_same_files sklearn_shuffle_same_files : preserve.

Lemma load_datasets_same_files (self : DataLoader) :
  save_to_file self = false → preserves same_files (load_datasets self).
Proof.
  intros Hsave. unfold load_datasets. rewrite Hsave.
  preserve_structure; preserve_leaf.
Qed.

(** X2: whatever a pass of the loader returns or raises, it leaves the
    sources, the generated layout, the [random] module's generator and
    the attributes as they were, and touches no [.npy] file but the four
    it may save; unless saving is on it leaves the whole file system as
    it was. *)
Theorem loader_leaves_layout (self : DataLoader) (w : World) :
  loader_footprint w (load_datasets self w).2
  ∧ (save_to_file self = false → fs (load_datasets self w).2 = fs w).
Proof.
  split; [apply load_datasets_loader|].
  intros Hsave. by destruct (load_datasets_same_files self Hsave w).
Qed.

Lemma loader_leaves_layout_witness :
  save_to_file small = false ∧ fs (load_datasets small booth).2 = fs booth.
Proof.
  split; [reflexivity|].
  destruct (loader_leaves_layout small booth) as [_ H]. exact (H eq_refl).
Defined.

(** *** Generation *)

Section GenerationFootprint.
Variable self : DataLoader.








End GenerationFootprint.


(** ** More on the loader *)

Lemma read_raises (f : WavFile) (e : PyError) :
  np_sum_axis1 (wavfile_read f).2 = Raises e → e = AxisError ∧ wav_channels f ≤ 1.
Proof.
  unfold wavfile_read, np_sum_axis1. cbn [snd].
  destruct (Nat.ltb_spec 1 (wav_channels f)); [done|]. by intros [= <-].
Qed.

Lemma read_all_raises (files : list WavFile) (e : PyError) :
  map_outcome (λ wav, np_sum_axis1 (wavfile_read wav).2) files = Raises e →
  e = AxisError ∧ ∃ file, file ∈ files ∧ wav_channels file ≤ 1.
Proof.
  induction files as [|f files IH]; cbn [map_outcome]; [done|].
  destruct (np_sum_axis1 (wavfile_read f).2) as [x|e'] eqn:Hf.
  - destruct (map_outcome _ files) as [xs|e'']; [done|].
    intros [= <-]. destruct (IH eq_refl) as (-> & file & Hin & Hch).
    split; [done|]. exists file. split; [by right|done].
  - intros [= <-]. apply read_raises in Hf as [-> Hch].
    split; [done|]. exists f. split; [left|done].
Qed.

Lemma read_all_channels (files : list WavFile) (xs : list (list Z)) :
  map_outcome (λ wav, np_sum_axis1 (wavfile_read wav).2) files = Returns xs →
  Forall (λ f, 1 < wav_channels f) files.
Proof.
  intros H%map_outcome_inv. induction H as [|f x files xs Hfx _ IH]; [done|].
  constructor; [|done]. by apply read_mono in Hfx as [? _].
Qed.

Section LoadingMore.
Variable self : DataLoader.

Let visited (w : World) (ks : list nat) (file : WavFile) : Prop :=
  ∃ k, k ∈ ks ∧ file ∈ bucket_files (fs w) (train_dest_dir self) k
                        ++ bucket_files (fs w) (test_dest_dir self) k.

(** The loop over the buckets returns exactly when every file it reads
    has more than one channel, and raises [AxisError] otherwise. *)
Lemma load_buckets_outcome (ks : list nat) :
  ∀ acc w,
    ((∀ file, visited w ks file → 1 < wav_channels file)
     ∧ ∃ r, (foldM (load_bucket self) acc ks w).1 = Returns r)
    ∨ ((∃ file, visited w ks file ∧ wav_channels file ≤ 1)
       ∧ (foldM (load_bucket self) acc ks w).1 = Raises AxisError).
Proof.
  induction ks as [|k ks IH]; intros acc w.
  - left. split; [|by eexists]. by intros file (k & Hk%elem_of_nil & _).
  - cbn [foldM]. rewrite run_bind, load_bucket_run.
    destruct (map_outcome _ (bucket_files (fs w) (train_dest_dir self) k))
      as [cx|e] eqn:Hcx; last first.
    { right. apply read_all_raises in Hcx as (-> & file & Hin & Hch).
      split; [|done]. exists file. split; [|done]. exists k.
      split; [left|]. apply elem_of_app. by left. }
    destruct (map_outcome _ (bucket_files (fs w) (test_dest_dir self) k))
      as [cs|e] eqn:Hcs; last first.
    { right. apply read_all_raises in Hcs as (-> & file & Hin & Hch).
      split; [|done]. exists file. split; [|done]. exists k.
      split; [left|]. apply elem_of_app. by right. }
    apply read_all_channels in Hcx, Hcs.
    match goal with |- context [foldM _ ?acc' ks w] => destruct (IH acc' w)
      as [[Hall Hret]|[(file & (k' & Hk' & Hin) & Hch) Hraise]] end.
    + left. split; [|done]. intros file (k' & Hk' & Hin).
      apply elem_of_cons in Hk' as [->|Hk'].
      * apply elem_of_app in Hin as [Hin|Hin];
          [eapply Forall_forall in Hcx|eapply Forall_forall in Hcs]; eauto.
      * apply Hall. by exists k'.
    + right. split; [|done]. exists file. split; [|done]. exists k'.
      split; [by right|done].
Qed.

Lemma load_buckets_collect (ks : list nat) (acc : _) (w : World) r :
  (foldM (load_bucket self) acc ks w).1 = Returns r →
  foldM (load_bucket self) acc ks w = (Returns r, w).
Proof.
  intros H. rewrite (surjective_pairing (foldM _ _ _ _)).
  by rewrite H, load_buckets_world.
Qed.

(** The world a successful pass leaves. *)
Lemma load_datasets_run_world (w : World) (tx ty sx sy : _) :
  let ks := py_range (min_speakers self) (max_speakers self + 1) in
  (foldM (load_bucket self) ([], [], [], []) ks
     (set_log (log w ++ ["Loading data"]) w)).1 = Returns (tx, ty, sx, sy) →
  length tx = length ty → length sx = length sy →
  let r1 := random_shuffle (seq 0 (length tx)) (np_random w) in
  let r2 := random_shuffle (seq 0 (length sx)) r1.2 in
  let a := np_take (np_array (map (fit (pad_to self)) tx)) r1.1 in
  let b := np_take (Arr1 (map Z.of_nat ty)) r1.1 in
  let c := np_take (np_array (map (fit (pad_to self)) sx)) r2.1 in
  let d := np_take (Arr1 (map Z.of_nat sy)) r2.1 in
  np_random (load_datasets self w).2 = r2.2
  ∧ npy_files (fs (load_datasets self w).2)
    = (if save_to_file self
       then <["test_y.npy" := d]> (<["test_x.npy" := c]>
              (<["train_y.npy" := b]> (<["train_x.npy" := a]> (npy_files (fs w)))))
       else npy_files (fs w)).
Proof.
  intros ks Hfold Htx Hsx r1 r2 a b c d. subst a b c d.
  apply load_buckets_collect in Hfold.
  split.
  all: unfold load_datasets; rewrite run_bind; cbn [write_log]; rewrite run_bind;
    fold ks; rewrite Hfold;
    rewrite run_bind; unfold lift at 1;
    rewrite (map_outcome_returns _ (fit (pad_to self)))
      by (intros; apply pad_and_cut_returns);
    rewrite run_bind; unfold lift at 1;
    rewrite (map_outcome_returns _ (fit (pad_to self)))
      by (intros; apply pad_and_cut_returns);
    rewrite run_bind; unfold sklearn_shuffle at 1;
    cbn [np_len]; rewrite np_array_len, !length_map;
    rewrite Htx, Nat.eqb_refl; cbn [negb set_log np_random]; rewrite <- Htx; fold r1;
    destruct r1 as [idx1 g1] eqn:Hr1;
    rewrite run_bind; unfold sklearn_shuffle at 1;
    cbn [np_len]; rewrite np_array_len, !length_map;
    rewrite Hsx, Nat.eqb_refl; cbn [negb set_np_random np_random]; rewrite <- Hsx;
    cbn [snd] in r2; fold r2;
    destruct r2 as [idx2 g2] eqn:Hr2;
    rewrite run_bind; cbn [write_log]; rewrite run_bind;
    destruct (save_to_file self); reflexivity.
Qed.

(** From a successful pass back to what the loop collected. *)
Lemma load_datasets_collected (w : World) (r : _) :
  (load_datasets self w).1 = Returns r →
  let ks := py_range (min_speakers self) (max_speakers self + 1) in
  let F1 := bucket_files (fs w) (train_dest_dir self) in
  let F2 := bucket_files (fs w) (test_dest_dir self) in
  (foldM (load_bucket self) ([], [], [], []) ks
     (set_log (log w ++ ["Loading data"]) w)).1
  = Returns (flat_map (λ k, map mono (F1 k)) ks,
             flat_map (λ k, replicate (length (F1 k)) k) ks,
             flat_map (λ k, map mono (F2 k)) ks,
             flat_map (λ k, replicate (length (F2 k)) k) ks).
Proof.
  intros H ks F1 F2.
  destruct (foldM (load_bucket self) ([], [], [], []) ks
              (set_log (log w ++ ["Loading data"]) w)) as [[r0|e] w1] eqn:Hfold.
  - apply load_buckets_inv in Hfold. by rewrite Hfold.
  - rewrite (load_datasets_raises self w e) in H; [done|]. fold ks. by rewrite Hfold.
Qed.
End LoadingMore.

Lemma flat_map_nil {A B : Type} (f : A → list B) (l : list A) :
  (∀ a, a ∈ l → f a = []) → flat_map f l = [].
Proof.
  induction l as [|a l IH]; intros H; [done|].
  cbn. rewrite (H a) by left. apply IH. intros a' Ha'. apply H. by right.
Qed.

(** A successful pass, with what it returns spelled out. *)
Lemma load_datasets_successful (self : DataLoader) (w : World) (r : _) :
  (load_datasets self w).1 = Returns r →
  let ks := py_range (min_speakers self) (max_speakers self + 1) in
  let tx := flat_map (λ k, map mono (bucket_files (fs w) (train_dest_dir self) k)) ks in
  let ty := flat_map (λ k, replicate (length (bucket_files (fs w) (train_dest_dir self) k)) k) ks in
  let sx := flat_map (λ k, map mono (bucket_files (fs w) (test_dest_dir self) k)) ks in
  let sy := flat_map (λ k, replicate (length (bucket_files (fs w) (test_dest_dir self) k)) k) ks in
  let r1 := random_shuffle (seq 0 (length tx)) (np_random w) in
  let r2 := random_shuffle (seq 0 (length sx)) r1.2 in
  ∃ a b c d,
    r = (a, b, c, d)
    ∧ a = np_take (np_array (map (fit (pad_to self)) tx)) r1.1
    ∧ b = np_take (Arr1 (map Z.of_nat ty)) r1.1
    ∧ c = np_take (np_array (map (fit (pad_to self)) sx)) r2.1
    ∧ d = np_take (Arr1 (map Z.of_nat sy)) r2.1
    ∧ np_random (load_datasets self w).2 = r2.2
    ∧ npy_files (fs (load_datasets self w).2)
      = (if save_to_file self
         then <["test_y.npy" := d]> (<["test_x.npy" := c]>
                (<["train_y.npy" := b]> (<["train_x.npy" := a]> (npy_files (fs w)))))
         else npy_files (fs w)).
Proof.
  intros H ks tx ty sx sy r1 r2.
  pose proof (load_datasets_collected self w r H) as Hfold. cbn zeta in Hfold.
  pose proof (collected_lengths (bucket_files (fs w) (train_dest_dir self)) ks) as Htx.
  pose proof (collected_lengths (bucket_files (fs w) (test_dest_dir self)) ks) as Hsx.
  pose proof (load_datasets_run self w _ _ _ _ Hfold Htx Hsx) as Hrun.
  destruct (load_datasets_run_world self w _ _ _ _ Hfold Htx Hsx) as [Hnp Hnpy].
  cbv zeta in Hrun. rewrite Hrun in H. injection H as <-.
  do 4 eexists. split; [reflexivity|]. do 4 (split; [reflexivity|]).
  split; [exact Hnp|exact Hnpy].
Qed.

(** X1: with saving on, a successful pass of the loader leaves the four
    arrays it returns in the four [.npy] files, whatever those held
    before, and a snapshot load in the world it leaves hands the same
    four arrays to [map(tuple, ...)]. *)
Theorem saved_snapshot_round_trip (self : DataLoader) (w : World)
    (tx ty sx sy : ndarray) :
  save_to_file self = true →
  (load_datasets self w).1 = Returns (tx, ty, sx, sy) →
  let w' := (load_datasets self w).2 in
  npy_files (fs w') !! "train_x.npy" = Some tx
  ∧ npy_files (fs w') !! "train_y.npy" = Some ty
  ∧ npy_files (fs w') !! "test_x.npy" = Some sx
  ∧ npy_files (fs w') !! "test_y.npy" = Some sy
  ∧ (load_from_file_ w').1
    = Returns (PyMapTuple [PyArray tx; PyArray ty; PyArray sx; PyArray sy]).
Proof.
  intros Hsave H w'.
  destruct (load_datasets_successful self w _ H)
    as (a & b & c & d & Hr & _ & _ & _ & _ & _ & Hnpy).
  rewrite Hsave in Hnpy. injection Hr as <- <- <- <-.
  assert (npy_files (fs w') !! "train_x.npy" = Some tx) as H1.
  { unfold w'. rewrite Hnpy. rewrite !lookup_insert_ne by discriminate.
    apply lookup_insert_eq. }
  assert (npy_files (fs w') !! "train_y.npy" = Some ty) as H2.
  { unfold w'. rewrite Hnpy. rewrite !lookup_insert_ne by discriminate.
    apply lookup_insert_eq. }
  assert (npy_files (fs w') !! "test_x.npy" = Some sx) as H3.
  { unfold w'. rewrite Hnpy. rewrite !lookup_insert_ne by discriminate.
    apply lookup_insert_eq. }
  assert (npy_files (fs w') !! "test_y.npy" = Some sy) as H4.
  { unfold w'. rewrite Hnpy. apply lookup_insert_eq. }
  do 4 (split; [done|]).
  destruct (load_from_file_run w') as (-> & _).
  unfold snapshot_outcome. by rewrite H1, H2, H3, H4.
Qed.

Lemma saved_snapshot_round_trip_witness :
  save_to_file small_saving = true
  ∧ ∃ tx ty sx sy,
      (load_datasets small_saving booth).1 = Returns (tx, ty, sx, sy)
      ∧ (load_from_file_ (load_datasets small_saving booth).2).1
        = Returns (PyMapTuple [PyArray tx; PyArray ty; PyArray sx; PyArray sy]).
Proof.
  split; [reflexivity|]. do 4 eexists.
  assert ((load_datasets small_saving booth).1 = Returns _) as H
    by (vm_compute; reflexivity).
  split; [exact H|].
  destruct (saved_snapshot_round_trip small_saving booth _ _ _ _ eq_refl H)
    as (_ & _ & _ & _ & Hload).
  exact Hload.
Defined.

(** X3: a pass of the loader returns exactly when every file of the
    bucket directories it visits has more than one channel; as soon as
    one of them is a mono file it raises [AxisError]. *)
Theorem loader_needs_two_channels (self : DataLoader) (w : World) :
  ((∀ k file, min_speakers self ≤ k ≤ max_speakers self →
      file ∈ bucket_files (fs w) (train_dest_dir self) k
             ++ bucket_files (fs w) (test_dest_dir self) k →
      1 < wav_channels file)
   ∧ ∃ r, (load_datasets self w).1 = Returns r)
  ∨ ((∃ k file, min_speakers self ≤ k ≤ max_speakers self
                ∧ file ∈ bucket_files (fs w) (train_dest_dir self) k
                         ++ bucket_files (fs w) (test_dest_dir self) k
                ∧ wav_channels file ≤ 1)
     ∧ (load_datasets self w).1 = Raises AxisError).
Proof.
  set (ks := py_range (min_speakers self) (max_speakers self + 1)).
  set (w0 := set_log (log w ++ ["Loading data"]) w).
  destruct (load_buckets_outcome self ks ([], [], [], []) w0)
    as [[Hall (r & Hret)]|[(file & (k & Hk & Hin) & Hch) Hraise]].
  - left. split.
    + intros k file Hk Hin. apply Hall. exists k. split; [|done].
      by apply elem_of_py_range.
    + apply load_buckets_collect in Hret as Hfold.
      apply load_buckets_inv in Hfold. cbn [fst snd app] in Hfold. subst r.
      eexists. apply (load_datasets_run self w _ _ _ _ Hret); apply collected_lengths.
  - right. split; [|by apply load_datasets_raises].
    exists k, file. split; [by apply elem_of_py_range|done].
Qed.

(** X4: when the bucket directories the loader visits hold no file, or
    do not exist, the pass returns four empty one-dimensional arrays, not
    arrays of [pad_to] columns, and draws nothing from numpy's
    generator. *)
Theorem empty_layout_loads_empty (self : DataLoader) (w : World) :
  (∀ k, min_speakers self ≤ k ≤ max_speakers self →
     bucket_files (fs w) (train_dest_dir self) k = []
     ∧ bucket_files (fs w) (test_dest_dir self) k = []) →
  (load_datasets self w).1 = Returns (Arr1 [], Arr1 [], Arr1 [], Arr1 [])
  ∧ np_random (load_datasets self w).2 = np_random w.
Proof.
  intros Hempty.
  set (ks := py_range (min_speakers self) (max_speakers self + 1)).
  set (w0 := set_log (log w ++ ["Loading data"]) w).
  destruct (load_buckets_outcome self ks ([], [], [], []) w0)
    as [[_ (r & Hret)]|[(file & (k & Hk & Hin) & _) _]]; last first.
  { apply elem_of_py_range in Hk. destruct (Hempty k Hk) as [E1 E2].
    change (fs w0) with (fs w) in Hin. rewrite E1, E2 in Hin.
    by apply elem_of_nil in Hin. }
  assert (∃ r', (load_datasets self w).1 = Returns r') as (r' & Hr').
  { apply load_buckets_collect in Hret as Hfold.
    apply load_buckets_inv in Hfold. cbn [fst snd app] in Hfold. subst r.
    eexists. apply (load_datasets_run self w _ _ _ _ Hret); apply collected_lengths. }
  destruct (load_datasets_successful self w r' Hr')
    as (a & b & c & d & -> & Ha & Hb & Hc & Hd & Hnp & _).
  fold ks in Ha, Hb, Hc, Hd, Hnp.
  assert (∀ dest, dest = train_dest_dir self ∨ dest = test_dest_dir self →
            flat_map (λ k, map mono (bucket_files (fs w) dest k)) ks = []
            ∧ flat_map (λ k, replicate (length (bucket_files (fs w) dest k)) k) ks = [])
    as Hnil.
  { intros dest Hdest. split; apply flat_map_nil; intros k Hk%elem_of_py_range;
      destruct (Hempty k Hk) as [E1 E2]; destruct Hdest as [-> | ->];
      by rewrite ?E1, ?E2. }
  destruct (Hnil (train_dest_dir self)) as [Ex1 Ey1]; [by left|].
  destruct (Hnil (test_dest_dir self)) as [Ex2 Ey2]; [by right|].
  rewrite Ex1 in Ha, Hb, Hnp. rewrite Ey1 in Hb. rewrite Ex2 in Hc, Hd, Hnp.
  rewrite Ey2 in Hd. rewrite Hr', Ha, Hb, Hc, Hd, Hnp. by split.
Qed.

Lemma empty_layout_loads_empty_witness :
  (∀ k, min_speakers timit ≤ k ≤ max_speakers timit →
     bucket_files (fs studio) (train_dest_dir timit) k = []
     ∧ bucket_files (fs studio) (test_dest_dir timit) k = [])
  ∧ (load_datasets timit studio).1 = Returns (Arr1 [], Arr1 [], Arr1 [], Arr1 []).
Proof.
  assert (∀ k, min_speakers timit ≤ k ≤ max_speakers timit →
            bucket_files (fs studio) (train_dest_dir timit) k = []
            ∧ bucket_files (fs studio) (test_dest_dir timit) k = []) as Hempty.
  { intros k _. split; reflexivity. }
  split; [exact Hempty|].
  destruct (empty_layout_loads_empty timit studio Hempty) as [H _]. exact H.
Defined.

(** ** Writing and reading back *)

Lemma nth_pad_zero (x : list Z) (m t : nat) :
  nth t (x ++ replicate m 0%Z) 0%Z = nth t x 0%Z.
Proof.
  rewrite !nth_lookup. destruct (decide (t < length x)) as [Hlt|Hge].
  - by rewrite lookup_app_l.
  - rewrite lookup_app_r by lia. rewrite (lookup_ge_None_2 x t) by lia.
    destruct (replicate m 0%Z !! (t - length x)) as [z|] eqn:Hz; [|done].
    by apply lookup_replicate in Hz as [-> _].
Qed.

Lemma mono_mixture (rate : nat) (p : list Recording) :
  p ≠ [] → mono (mixture rate p) = overlay p.
Proof.
  intros Hp. unfold mono, overlay. rewrite mixture_frames by done.
  rewrite map_map. apply map_ext. intros t. f_equal.
  unfold padded. rewrite map_map. apply map_ext. intros x. apply nth_pad_zero.
Qed.

(** X5: read back the way the loader reads it, the file written for a
    partition of two or more recordings is their overlay: sample [t] is
    the sum of the samples [t] of the members, a member that has ended
    counting as zero; the file written for a single recording cannot be
    read back, the loader's channel sum raises [AxisError] on it. *)
Theorem mixture_reads_back_as_overlay (rate : nat) (p : list Recording) :
  p ≠ [] →
  np_sum_axis1 (wavfile_read (mixture rate p)).2
  = (if 1 <? length p then Returns (overlay p) else Raises AxisError).
Proof.
  intros Hp. destruct (Nat.ltb_spec 1 (length p)) as [Hlen|Hlen].
  - apply read_mono. rewrite mixture_channels by done.
    split; [done|]. symmetry. by apply mono_mixture.
  - unfold wavfile_read, np_sum_axis1. cbn [snd].
    rewrite mixture_channels by done.
    by destruct (Nat.ltb_spec 1 (length p)); [lia|].
Qed.

Lemma mixture_reads_back_as_overlay_witness :
  [[1; 2; 3]; [4]; [5; 6]]%Z ≠ []
  ∧ np_sum_axis1 (wavfile_read (mixture 16 [[1; 2; 3]; [4]; [5; 6]]%Z)).2
    = Returns [10; 8; 3]%Z.
Proof.
  assert ([[1; 2; 3]; [4]; [5; 6]]%Z ≠ []) as Hp by done.
  split; [exact Hp|].
  exact (mixture_reads_back_as_overlay 16 _ Hp).
Defined.





(** ** Generation followed by loading *)

Lemma bucket_files_prefix (f : FileSystem) (dest : string) (k n : nat)
    (file : nat → WavFile) :
  (∀ i, i < n → bucket f dest k !! i = Some (file i)) →
  (∀ i, n ≤ i → bucket f dest k !! i = None) →
  bucket_files f dest k ≡ₚ map file (seq 0 n).
Proof.
  intros Hlt Hge.
  assert (NoDup (map (λ i, (i, file i)) (seq 0 n)).*1) as Hnd.
  { fmapify. rewrite <- list_fmap_compose.
    replace (fst ∘ (λ i, (i, file i))) with (@id nat) by done.
    rewrite list_fmap_id. apply NoDup_seq. }
  assert (bucket f dest k = list_to_map (map (λ i, (i, file i)) (seq 0 n))) as Hmap.
  { apply map_eq. intros i. apply option_eq. intros x.
    rewrite <- elem_of_list_to_map by done. fmapify. rewrite list_elem_of_fmap.
    split.
    - intros Hx. destruct (decide (i < n)) as [Hi|Hi].
      + exists i. rewrite Hlt in Hx by done. injection Hx as <-.
        split; [done|]. apply elem_of_seq. lia.
      + rewrite Hge in Hx by lia. done.
    - intros (j & [= -> ->] & Hj%elem_of_seq). apply Hlt. lia. }
  unfold bucket_files. rewrite Hmap, map_to_list_to_map by done.
  fmapify. by rewrite <- list_fmap_compose.
Qed.

Lemma flat_map_Permutation_ext {A B : Type} (f g : A → list B) (l : list A) :
  (∀ a, a ∈ l → f a ≡ₚ g a) → flat_map f l ≡ₚ flat_map g l.
Proof.
  induction l as [|a l IH]; intros H; [done|].
  cbn. rewrite (H a) by left. rewrite IH; [done|].
  intros a' Ha'. apply H. by right.
Qed.

Lemma flat_map_const_length {A B : Type} (f : A → list B) (l : list A) (n : nat) :
  (∀ a, length (f a) = n) → length (flat_map f l) = length l * n.
Proof.
  intros H. induction l as [|a l IH]; [done|].
  cbn. rewrite length_app, H, IH. lia.
Qed.

(** The rows and labels of a successful pass, paired. *)
Lemma load_datasets_pairs (self : DataLoader) (w : World) (tx ty sx sy : ndarray) :
  (load_datasets self w).1 = Returns (tx, ty, sx, sy) →
  zip (samples_of tx) (labels_of ty) ≡ₚ bucket_samples self (fs w) (train_dest_dir self)
  ∧ zip (samples_of sx) (labels_of sy) ≡ₚ bucket_samples self (fs w) (test_dest_dir self)
  ∧ length (samples_of tx) = length (labels_of ty)
  ∧ length (samples_of sx) = length (labels_of sy).
Proof.
  intros H. apply load_datasets_inv in H
    as (idx1 & idx2 & Hp1 & Hp2 & -> & -> & -> & ->).
  cbn zeta in *.
  assert (∀ (X : list (list Z * Z)) idx,
            idx ≡ₚ seq 0 (length X) →
            zip (map (λ i, nth i X.*1 []) idx) (map (λ i, nth i X.*2 0%Z) idx) ≡ₚ X)
    as Hzip.
  { intros X idx Hidx. rewrite index_zip by (by rewrite !length_fmap).
    rewrite zip_fst_snd. by apply index_Permutation. }
  split; [by apply Hzip|]. split; [by apply Hzip|]. by rewrite !length_map.
Qed.

(** One split of a generated layout, as the loader will see it. *)
Lemma generated_split_samples (self : DataLoader) (f : FileSystem) (dest : string)
    (base : nat → list Recording) (n : nat) :
  2 ≤ min_speakers self →
  (∀ k, in_range self k →
     n * k ≤ length (base k)
     ∧ (∀ i, i < n →
          bucket f dest k !! i
          = Some (mixture (N.to_nat (sampled_at self)) (group k i (base k))))
     ∧ (∀ i, n ≤ i → bucket f dest k !! i = None)) →
  bucket_samples self f dest
  ≡ₚ flat_map (λ k, map (λ i, (fit (pad_to self) (overlay (group k i (base k))),
                               Z.of_nat k)) (seq 0 n))
              (py_range (min_speakers self) (max_speakers self + 1))
  ∧ (∀ k file, in_range self k → file ∈ bucket_files f dest k → 1 < wav_channels file).
Proof.
  intros Hmin Hlayout.
  assert (∀ k i, in_range self k → i < n → length (group k i (base k)) = k) as Hlen.
  { intros k i Hk Hi. destruct (Hlayout k Hk) as (Hfit & _).
    apply group_length. nia. }
  assert (∀ k, in_range self k →
            bucket_files f dest k
            ≡ₚ map (λ i, mixture (N.to_nat (sampled_at self)) (group k i (base k)))
                   (seq 0 n)) as Hfiles.
  { intros k Hk. destruct (Hlayout k Hk) as (_ & Hlt & Hge).
    by apply bucket_files_prefix. }
  split.
  - unfold bucket_samples. apply flat_map_Permutation_ext.
    intros k Hk%elem_of_py_range. rewrite (Hfiles k Hk), map_map.
    assert (map (λ i, (fit (pad_to self)
                         (mono (mixture (N.to_nat (sampled_at self)) (group k i (base k)))),
                       Z.of_nat k)) (seq 0 n)
            = map (λ i, (fit (pad_to self) (overlay (group k i (base k))), Z.of_nat k))
                  (seq 0 n)) as ->; [|done].
    apply map_ext_in. intros i Hi%in_seq. rewrite mono_mixture; [done|].
    intros Hnil. pose proof (Hlen k i Hk ltac:(lia)) as Hl.
    rewrite Hnil in Hl. unfold in_range in Hk. cbn in Hl. lia.
  - intros k file Hk Hin. rewrite (Hfiles k Hk) in Hin. fmapify.
    apply list_elem_of_fmap in Hin as (i & -> & Hi%elem_of_seq).
    pose proof (Hlen k i Hk ltac:(lia)) as Hl.
    rewrite mixture_channels; [unfold in_range in Hk; lia|].
    intros Hnil. rewrite Hnil in Hl. unfold in_range in Hk. cbn in Hl. lia.
Qed.

(** X6: generation into empty bucket directories followed by a pass of
    the loader.  With at least two speakers per mixture the loader
    returns, and for every split, every speaker count [k] in range and
    every [i] below [N // max_speakers] it holds exactly one sample: the
    overlay of the [i]-th group of [k] recordings, of the list as
    shuffled for bucket [k] in the train split and as read in the test
    split, brought to [pad_to] samples and labelled [k].  Each split thus
    has [(max_speakers - min_speakers + 1) * (N // max_speakers)]
    samples. *)
Theorem generate_then_load (self : DataLoader) (w : World) :
  2 ≤ min_speakers self → 0 < max_speakers self →
  train_dest_dir self ≠ test_dest_dir self →
  (∀ k, min_speakers self ≤ k ≤ max_speakers self →
     bucket (fs w) (train_dest_dir self) k = ∅
     ∧ bucket (fs w) (test_dest_dir self) k = ∅) →
  let ks := py_range (min_speakers self) (max_speakers self + 1) in
  let tr := recordings (fs w) (train_src_dir self) in
  let te := recordings (fs w) (test_src_dir self) in
  let sample k p := (fit (pad_to self) (overlay p), Z.of_nat k) in
  ∃ w1 tx ty sx sy,
    generate_datasets self w = (Returns (), w1)
    ∧ (load_datasets self w1).1 = Returns (tx, ty, sx, sy)
    ∧ zip (samples_of tx) (labels_of ty)
      ≡ₚ flat_map (λ k, map (λ i, sample k
                               (group k i (shuffled_at (S (k - min_speakers self)) tr
                                             (py_random w)).1))
                            (seq 0 (length tr / max_speakers self))) ks
    ∧ zip (samples_of sx) (labels_of sy)
      ≡ₚ flat_map (λ k, map (λ i, sample k (group k i te))
                            (seq 0 (length te / max_speakers self))) ks
    ∧ length (samples_of tx)
      = (max_speakers self + 1 - min_speakers self) * (length tr / max_speakers self)
    ∧ length (samples_of sx)
      = (max_speakers self + 1 - min_speakers self) * (length te / max_speakers self).
Proof.
  intros Hmin Hmax Hne Hempty ks tr te sample.
  destruct (generate_datasets_layout self w ltac:(lia) Hmax) as (w1 & Hgen & Hte & Htr).
  specialize (Htr Hne).
  destruct (generated_split_samples self (fs w1) (train_dest_dir self)
              (λ k, (shuffled_at (S (k - min_speakers self)) tr (py_random w)).1)
              (length tr / max_speakers self) Hmin) as [Hs1 Hc1].
  { intros k Hk. destruct (Hempty k Hk) as [E _]. split; [|split].
    - rewrite shuffled_at_length. apply floordiv_groups_fit; [done|apply Hk].
    - intros i Hi. destruct (Htr k i Hk) as (Hnew & _). by apply Hnew.
    - intros i Hi. destruct (Htr k i Hk) as (_ & Hold & _).
      rewrite (Hold Hi), E. apply lookup_empty. }
  destruct (generated_split_samples self (fs w1) (test_dest_dir self) (λ _, te)
              (length te / max_speakers self) Hmin) as [Hs2 Hc2].
  { intros k Hk. destruct (Hempty k Hk) as [_ E]. split; [|split].
    - apply floordiv_groups_fit; [done|apply Hk].
    - intros i Hi. by apply Hte.
    - intros i Hi. destruct (Htr k i Hk) as (_ & _ & Hold).
      rewrite (Hold Hi), E. apply lookup_empty. }
  destruct (load_datasets_returns self w1) as ([[[tx ty] sx] sy] & Hload).
  { intros k file Hk [Hin|Hin]%elem_of_app; eauto. }
  destruct (load_datasets_pairs self w1 tx ty sx sy Hload) as (Hz1 & Hz2 & Hl1 & Hl2).
  exists w1, tx, ty, sx, sy. split; [done|]. split; [done|].
  rewrite Hs1 in Hz1. rewrite Hs2 in Hz2.
  split; [exact Hz1|]. split; [exact Hz2|].
  apply Permutation_length in Hz1, Hz2.
  rewrite length_zip_with in Hz1, Hz2.
  rewrite (flat_map_const_length _ _ (length tr / max_speakers self)) in Hz1
    by (intros; by rewrite length_map, length_seq).
  rewrite (flat_map_const_length _ _ (length te / max_speakers self)) in Hz2
    by (intros; by rewrite length_map, length_seq).
  fold ks in Hz1, Hz2. unfold ks in Hz1, Hz2. rewrite py_range_length in Hz1, Hz2.
  split; lia.
Qed.

Lemma generate_then_load_witness :
  2 ≤ min_speakers timit ∧ 0 < max_speakers timit
  ∧ train_dest_dir timit ≠ test_dest_dir timit
  ∧ (∀ k, min_speakers timit ≤ k ≤ max_speakers timit →
       bucket (fs studio) (train_dest_dir timit) k = ∅
       ∧ bucket (fs studio) (test_dest_dir timit) k = ∅)
  ∧ ∃ w1 tx ty sx sy,
      generate_datasets timit studio = (Returns (), w1)
      ∧ (load_datasets timit w1).1 = Returns (tx, ty, sx, sy)
      ∧ length (samples_of tx) = 38
      ∧ length (samples_of sx) = 19.
Proof.
  assert (2 ≤ min_speakers timit) as Hmin by (cbn; lia).
  assert (0 < max_speakers timit) as Hmax by (cbn; lia).
  assert (train_dest_dir timit ≠ test_dest_dir timit) as Hne by done.
  assert (∀ k, min_speakers timit ≤ k ≤ max_speakers timit →
            bucket (fs studio) (train_dest_dir timit) k = ∅
            ∧ bucket (fs studio) (test_dest_dir timit) k = ∅) as Hempty.
  { intros k _. split; reflexivity. }
  split; [exact Hmin|]. split; [exact Hmax|]. split; [exact Hne|].
  split; [exact Hempty|].
  destruct (generate_then_load timit studio Hmin Hmax Hne Hempty)
    as (w1 & tx & ty & sx & sy & Hgen & Hload & _ & _ & Hn1 & Hn2).
  exists w1, tx, ty, sx, sy. split; [exact Hgen|]. split; [exact Hload|].
  split; [exact Hn1|exact Hn2].
Defined.

(** ** Speaker counts that make generation fail *)

(** X9: with [max_speakers] zero, generation raises [ZeroDivisionError]
    at the first split, before any directory is made: only the first log
    line is written.  A forced regeneration through [load_data] raises
    the same, snapshot flag or not. *)
Theorem zero_max_speakers_raises (self : DataLoader) (w : World) :
  max_speakers self = 0 →
  generate_datasets self w
  = (Raises ZeroDivisionError, set_log (log w ++ ["Generating data"]) w)
  ∧ load_data self true w
    = (Raises ZeroDivisionError, set_log (log w ++ ["Generating data"]) w).
Proof.
  intros Hmax.
  assert (generate_datasets self w
          = (Raises ZeroDivisionError, set_log (log w ++ ["Generating data"]) w)) as Hgen.
  { unfold generate_datasets, for_each. rewrite run_bind. cbn [write_log].
    rewrite run_bind. cbn [foldM]. rewrite run_bind.
    unfold generate_split at 1. rewrite run_bind. cbn [read_sources].
    rewrite run_bind. unfold floordiv. rewrite Hmax. reflexivity. }
  split; [exact Hgen|].
  unfold load_data. rewrite run_bind. by rewrite Hgen.
Qed.

Lemma zero_max_speakers_raises_witness :
  max_speakers no_speakers = 0
  ∧ (load_data no_speakers true studio).1 = Raises ZeroDivisionError
  ∧ fs (load_data no_speakers true studio).2 = fs studio.
Proof.
  assert (max_speakers no_speakers = 0) as Hmax by reflexivity.
  split; [exact Hmax|].
  destruct (zero_max_speakers_raises no_speakers studio Hmax) as [_ ->].
  split; reflexivity.
Defined.



(** ** Calling [load_data] again *)

Lemma load_data_existing (self : DataLoader) (w : World) :
  load_from_file self = false →
  train_dest_dir self ∈ directories (fs w) →
  test_dest_dir self ∈ directories (fs w) →
  load_data self false w = loader_result self w.
Proof.
  intros Hflag Htr Hte. unfold load_data. rewrite Hflag.
  rewrite run_bind. cbn [ret]. rewrite run_bind. cbn [dir_exists].
  rewrite run_bind. cbn [dir_exists].
  rewrite !bool_decide_true by done. reflexivity.
Qed.

Lemma load_data_generating (self : DataLoader) (w w1 : World) :
  load_from_file self = false →
  generate_datasets self w = (Returns (), w1) →
  train_dest_dir self ∈ directories (fs w1) →
  test_dest_dir self ∈ directories (fs w1) →
  load_data self true w = loader_result self w1
  ∧ (¬ (train_dest_dir self ∈ directories (fs w)
        ∧ test_dest_dir self ∈ directories (fs w)) →
     load_data self false w = loader_result self w1).
Proof.
  intros Hflag Hgen Htr Hte. split.
  - unfold load_data. rewrite Hflag. rewrite run_bind, Hgen.
    rewrite run_bind. cbn [dir_exists]. rewrite run_bind. cbn [dir_exists].
    rewrite !bool_decide_true by done. reflexivity.
  - intros Hmissing. unfold load_data. rewrite Hflag.
    rewrite run_bind. cbn [ret]. rewrite run_bind. cbn [dir_exists].
    rewrite run_bind. cbn [dir_exists].
    assert (negb (bool_decide (train_dest_dir self ∈ directories (fs w)))
            || negb (bool_decide (test_dest_dir self ∈ directories (fs w))) = true) as ->.
    { destruct (decide (train_dest_dir self ∈ directories (fs w))) as [H1|H1].
      - rewrite (bool_decide_true _ H1).
        rewrite bool_decide_false; [done|]. tauto.
      - by rewrite (bool_decide_false _ H1). }
    rewrite run_bind, Hgen. reflexivity.
Qed.

Lemma loader_result_loader (self : DataLoader) :
  preserves loader_footprint (loader_result self).
Proof.
  intros w. unfold loader_result. rewrite run_bind.
  pose proof (load_datasets_loader self w) as H.
  by destruct (load_datasets self w) as [[[[[a b] c] d]|e] w'].
Qed.

(** X11: with the snapshot flag off and speaker counts
    [0 < min_speakers ≤ max_speakers], whatever a call of [load_data]
    did, forced or not, returning or raising, both destination
    directories exist afterwards.  A further unforced call is therefore
    the loader alone: it regenerates nothing, leaving the buckets, the
    directories and the [random] module's generator as they are. *)
Theorem second_call_only_loads (self : DataLoader) (force_recreate : bool) (w : World) :
  load_from_file self = false →
  0 < min_speakers self ≤ max_speakers self →
  let w1 := (load_data self force_recreate w).2 in
  train_dest_dir self ∈ directories (fs w1)
  ∧ test_dest_dir self ∈ directories (fs w1)
  ∧ load_data self false w1 = loader_result self w1
  ∧ loader_footprint w1 (load_data self false w1).2.
Proof.
  intros Hflag Hcfg w1.
  assert (train_dest_dir self ∈ directories (fs w1)
          ∧ test_dest_dir self ∈ directories (fs w1)) as [Htr Hte].
  { destruct (generate_datasets_creates_dirs self w Hcfg) as (w' & Hgen & _ & Htr & Hte).
    destruct (load_data_generating self w w' Hflag Hgen Htr Hte) as [Htrue Hfalse].
    pose proof (loader_result_loader self w') as (_ & Hd' & _).
    pose proof (loader_result_loader self w) as (_ & Hd & _).
    subst w1.
    destruct force_recreate.
    - rewrite Htrue, Hd'. done.
    - destruct (decide (train_dest_dir self ∈ directories (fs w)
                        ∧ test_dest_dir self ∈ directories (fs w))) as [[H1 H2]|Hmissing].
      + rewrite (load_data_existing self w Hflag H1 H2), Hd. done.
      + rewrite (Hfalse Hmissing), Hd'. done. }
  split; [done|]. split; [done|].
  rewrite (load_data_existing self w1 Hflag Htr Hte).
  split; [done|]. apply loader_result_loader.
Qed.

Lemma second_call_only_loads_witness :
  load_from_file small = false
  ∧ 0 < min_speakers small ≤ max_speakers small
  ∧ load_data small false (load_data small true studio).2
    = loader_result small (load_data small true studio).2.
Proof.
  assert (load_from_file small = false) as Hflag by reflexivity.
  assert (0 < min_speakers small ≤ max_speakers small) as Hcfg by (cbn; lia).
  split; [exact Hflag|]. split; [exact Hcfg|].
  destruct (second_call_only_loads small true studio Hflag Hcfg) as (_ & _ & H & _).
  exact H.
Defined.

(** ** What the snapshot load leaves on the instance *)

Lemma load_sets_run (l : list string) (w : World) :
  NoDup l →
  let w' := (for_each l load_set w).2 in
  fs w' = fs w ∧ log w' = log w
  ∧ py_random w' = py_random w ∧ np_random w' = np_random w
  ∧ (∀ name, name ∉ l → attrs w' !! name = attrs w !! name)
  ∧ (∀ j set, l !! j = Some set →
       (∀ s, s ∈ take (S j) l → is_Some (npy_files (fs w) !! (s +:+ ".npy"))) →
       attrs w' !! set = npy_files (fs w) !! (set +:+ ".npy")).
Proof.
  unfold for_each. revert w.
  induction l as [|s l IH]; intros w Hnd; cbn zeta.
  { cbn. do 5 (split; [done|]). intros j set Hj. by rewrite lookup_nil in Hj. }
  apply NoDup_cons in Hnd as [Hs Hnd].
  cbn [foldM]. rewrite run_bind.
  destruct (npy_files (fs w) !! (s +:+ ".npy")) as [a|] eqn:Ha.
  - rewrite (load_set_present s a w Ha).
    set (w1 := set_attrs (<[s := a]> (attrs w)) w).
    destruct (IH w1 Hnd) as (Hfs & Hlog & Hpy & Hnp & Hother & Hset).
    split; [by rewrite Hfs|]. split; [by rewrite Hlog|].
    split; [by rewrite Hpy|]. split; [by rewrite Hnp|]. split.
    + intros name Hname. apply not_elem_of_cons in Hname as [Hne Hname].
      rewrite (Hother name Hname). subst w1. cbn [attrs set_attrs].
      by rewrite lookup_insert_ne.
    + intros [|j] set Hj Hpresent.
      * cbn in Hj. injection Hj as <-. rewrite (Hother s Hs). subst w1.
        cbn [attrs set_attrs]. by rewrite lookup_insert_eq, Ha.
      * cbn in Hj. apply (Hset j set Hj). intros s' Hs'.
        apply Hpresent. cbn [take]. by right.
  - rewrite (load_set_absent s w Ha). cbn [fst snd].
    do 5 (split; [done|]).
    intros j set Hj Hpresent. destruct (Hpresent s) as [a Hsome]; [cbn [take]; by left|].
    by rewrite Ha in Hsome.
Qed.

Lemma getattrs_world (l : list string) (acc : list PyValue) (w : World) :
  (foldM (λ acc set, a ← getattr set; ret (acc ++ [PyArray a])) acc l w).2 = w.
Proof.
  revert acc. induction l as [|s l IH]; intros acc; [done|].
  cbn [foldM]. rewrite run_bind, run_bind. unfold getattr at 1.
  destruct (attrs w !! s) as [a|]; [|done]. cbn [ret]. apply IH.
Qed.

(** X12: the snapshot load stores every array it reads on the instance,
    also when it then fails: a set whose file and the files of all sets
    before it are present ends up as an attribute holding that file's
    array, whether or not a later file is missing.  Attributes of other
    names and both generators are left alone. *)
Theorem snapshot_load_sets_attributes (w : World) :
  let w' := (load_from_file_ w).2 in
  (∀ j set, sets !! j = Some set →
     (∀ s, s ∈ take (S j) sets → is_Some (npy_files (fs w) !! (s +:+ ".npy"))) →
     attrs w' !! set = npy_files (fs w) !! (set +:+ ".npy"))
  ∧ (∀ name, name ∉ sets → attrs w' !! name = attrs w !! name)
  ∧ py_random w' = py_random w ∧ np_random w' = np_random w.
Proof.
  assert (NoDup sets) as Hnd by (apply (bool_decide_unpack _); by vm_compute).
  set (w0 := set_log (log w ++ ["Loading data from filesystem"]) w).
  destruct (load_sets_run sets w0 Hnd) as (_ & _ & Hpy & Hnp & Hother & Hset).
  assert (attrs (load_from_file_ w).2 = attrs (for_each sets load_set w0).2
          ∧ py_random (load_from_file_ w).2 = py_random (for_each sets load_set w0).2
          ∧ np_random (load_from_file_ w).2 = np_random (for_each sets load_set w0).2)
    as (Ea & Ep & En).
  { unfold load_from_file_. rewrite run_bind. cbn [write_log]. fold w0.
    rewrite run_bind.
    destruct (for_each sets load_set w0) as [[[]|e] w1]; [|done].
    rewrite run_bind. cbn [write_log]. rewrite run_bind.
    pose proof (getattrs_world sets [] (set_log (log w1 ++ ["Data loaded"]) w1)) as Hw.
    destruct (foldM _ [] sets _) as [[loaded|e] w2]; cbn [snd] in Hw; subst w2; done. }
  cbn zeta. rewrite Ea, Ep, En. split; [exact Hset|]. split; [exact Hother|].
  split; [exact Hpy|exact Hnp].
Qed.

Lemma snapshot_load_sets_attributes_witness :
  (load_from_file_ half_cached).1 = Raises (FileNotFoundError "test_x.npy")
  ∧ attrs (load_from_file_ half_cached).2 !! "train_y" = Some (Arr1 [2]%Z).
Proof.
  split; [vm_compute; reflexivity|].
  destruct (snapshot_load_sets_attributes half_cached) as (Hset & _).
  rewrite (Hset 1 "train_y" eq_refl).
  - vm_compute. reflexivity.
  - intros s Hs. cbn in Hs.
    apply elem_of_cons in Hs as [->|Hs]; [vm_compute; eauto|].
    apply list_elem_of_singleton in Hs as ->. vm_compute. eauto.
Defined.

(** ** Mixtures of one speaker *)

Lemma bucket_files_elem (f : FileSystem) (dest : string) (k i : nat) (file : WavFile) :
  bucket f dest k !! i = Some file → file ∈ bucket_files f dest k.
Proof.
  intros H. unfold bucket_files. apply list_elem_of_fmap.
  exists (i, file). split; [done|]. by apply elem_of_map_to_list.
Qed.

(** X13: with [min_speakers] one, generation writes mono files into
    bucket [1], and the loader cannot read them: as soon as the test
    split has [max_speakers] recordings (or the train split has, the two
    destinations being apart), generation returns and the pass of the
    loader over what it wrote raises [AxisError]. *)
Theorem single_speaker_bucket_breaks_loader (self : DataLoader) (w : World) :
  min_speakers self = 1 → 0 < max_speakers self →
  max_speakers self ≤ length (recordings (fs w) (test_src_dir self))
  ∨ (train_dest_dir self ≠ test_dest_dir self
     ∧ max_speakers self ≤ length (recordings (fs w) (train_src_dir self))) →
  ∃ w1, generate_datasets self w = (Returns (), w1)
        ∧ (load_datasets self w1).1 = Raises AxisError.
Proof.
  intros Hmin Hmax Hsrc.
  destruct (generate_datasets_layout self w ltac:(lia) Hmax) as (w1 & Hgen & Hte & Htr).
  exists w1. split; [done|].
  assert (in_range self 1) as Hone by (unfold in_range; lia).
  assert (∀ N, max_speakers self ≤ N → 0 < N / max_speakers self) as Hpos.
  { intros N HN. apply Nat.div_str_pos. lia. }
  assert (∀ l : list Recording, max_speakers self ≤ length l →
            wav_channels (mixture (N.to_nat (sampled_at self)) (group 1 0 l)) ≤ 1)
    as Hmono.
  { intros l Hl. assert (length (group 1 0 l) = 1) as Hg by (apply group_length; lia).
    rewrite mixture_channels; [lia|]. intros E. by rewrite E in Hg. }
  assert (∃ file, file ∈ bucket_files (fs w1) (train_dest_dir self) 1
                         ++ bucket_files (fs w1) (test_dest_dir self) 1
                  ∧ wav_channels file ≤ 1) as (file & Hin & Hch).
  { destruct Hsrc as [Hl|[Hne Hl]].
    - eexists. split; [|exact (Hmono _ Hl)].
      apply elem_of_app. right. apply (bucket_files_elem _ _ _ 0).
      apply Hte; [exact Hone|by apply Hpos].
    - destruct (Htr Hne 1 0 Hone) as (Hnew & _).
      specialize (Hnew (Hpos _ Hl)).
      eexists. split; [apply elem_of_app; left; exact (bucket_files_elem _ _ _ 0 _ Hnew)|].
      apply Hmono. by rewrite shuffled_at_length. }
  set (ks := py_range (min_speakers self) (max_speakers self + 1)).
  set (w0 := set_log (log w1 ++ ["Loading data"]) w1).
  destruct (load_buckets_outcome self ks ([], [], [], []) w0)
    as [[Hall _]|[_ Hraise]]; [|by apply load_datasets_raises].
  assert (1 < wav_channels file) as Hlt; [|lia].
  apply Hall. exists 1. split; [|exact Hin].
  apply elem_of_py_range. exact Hone.
Qed.

Lemma single_speaker_bucket_breaks_loader_witness :
  min_speakers from_one = 1 ∧ 0 < max_speakers from_one
  ∧ max_speakers from_one ≤ length (recordings (fs studio) (test_src_dir from_one))
  ∧ ∃ w1, generate_datasets from_one studio = (Returns (), w1)
          ∧ (load_datasets from_one w1).1 = Raises AxisError.
Proof.
  assert (min_speakers from_one = 1) as Hmin by reflexivity.
  assert (0 < max_speakers from_one) as Hmax by (cbn; lia).
  assert (max_speakers from_one ≤ length (recordings (fs studio) (test_src_dir from_one)))
    as Hsrc by (vm_compute; lia).
  split; [exact Hmin|]. split; [exact Hmax|]. split; [exact Hsrc|].
  exact (single_speaker_bucket_breaks_loader from_one studio Hmin Hmax (or_introl Hsrc)).
Defined.
